(** * The Commit binding of node-gitteh (src/commit.cc)

    A shallow embedding of the Commit wrapper: the C++ object, the
    script object it wraps, the calls it makes into libgit2, into the
    repository lock, the object factory and the event loop, and the order in
    which it makes them.

    Every operation is a computation in a small monad that threads the
    wrapper and the repository, records the calls in a trace and either
    returns a value or throws a script exception. *)

From Stdlib Require Import ZArith Lia Strings.Byte.
From stdpp Require Import base strings gmap list pretty.

#[local] Set Warnings "-register-all".
Local Open Scope Z_scope.

(** ** Native values *)

(** A native pointer ([git_commit*], [git_tree*]) is an address; [NULL] is 0. *)
Definition ptr := Z.
Definition NULL : ptr := 0.

(** [GIT_SUCCESS] of libgit2. *)
Definition GIT_SUCCESS : Z := 0.

(** A [git_oid]: the raw bytes of an object id. *)
Definition git_oid := list byte.

(** libgit2's [git_signature]: a name, an e-mail address and a time. *)
Record git_signature := {
  sig_name : string;
  sig_email : string;
  sig_time : Z;
  sig_offset : Z
}.

(** A C++ [int]: 32 bits, two's complement. *)
Definition int32 (z : Z) : Z := (z + 2 ^ 31) mod 2 ^ 32 - 2 ^ 31.
Definition INT_MAX : Z := 2 ^ 31 - 1.

(** ** Script values *)

(** What the binding throws.  [Error] is [Exception::Error(String::New(msg))],
    the value [THROW_ERROR] and [Save] throw; [GitError] is what
    [THROW_GIT_ERROR] throws.  The argument and property macros of gitteh.h
    are not part of src/: the exceptions they raise are kept apart, named
    after the macro, with the argument position or the property name. *)
Inductive exception :=
| Error (msg : string)
| GitError (msg : string) (code : Z)
| ArgumentError (macro : string) (position : nat)
| PropertyError (macro : string) (property : string).

(** The function templates an object can be an instance of. *)
Inductive template := CommitTemplate | TreeTemplate | OtherTemplate.

(** Script values, as far as the binding tells them apart.  An instance of a
    function template is given with the native pointer its wrapped C++ object
    holds ([commit_] of a Commit, [tree_] of a Tree): that is all the binding
    reads of a wrapper it receives as an argument. *)
Inductive jsval :=
| JSUndefined
| JSNull
| JSBoolean (b : bool)
| JSInt32 (n : Z)
| JSString (s : string)
| JSFunction (name : string)
| JSObject (fields : list (string * jsval))
| JSInstance (t : template) (native : ptr)
| JSException (e : exception).

(** [Value::ToString] of the script engine. *)
Definition ToString (v : jsval) : string :=
  match v with
  | JSUndefined => "undefined"
  | JSNull => "null"
  | JSBoolean true => "true"
  | JSBoolean false => "false"
  | JSInt32 n => pretty n
  | JSString s => s
  | JSFunction name => "function " +:+ name +:+ "() { [native code] }"
  | JSObject _ => "[object Object]"
  | JSInstance _ _ => "[object Object]"
  | JSException (Error msg) => "Error: " +:+ msg
  | JSException (GitError msg _) => "Error: " +:+ msg
  | JSException (ArgumentError _ _) => "TypeError"
  | JSException (PropertyError _ _) => "Error"
  end.

(** [enum PropertyAttribute] of the script engine: bit flags. *)
Definition None_ : Z := 0.
Definition ReadOnly : Z := 1.
Definition DontEnum : Z := 2.
Definition DontDelete : Z := 4.

Record property := {
  value : jsval;
  attributes : Z
}.

(** The own properties of a script object. *)
Abbreviation js_object := (gmap string property).

Definition Get (name : string) (o : js_object) : jsval :=
  match o !! name with
  | Some p => value p
  | None => JSUndefined
  end.

(** [Object::Set]: an existing read-only property is left as it is. *)
Definition Set_ (name : string) (v : jsval) (attribs : Z) (o : js_object)
  : js_object :=
  match o !! name with
  | Some p =>
      if Z.testbit (attributes p) 0 then o
      else <[name := {| value := v; attributes := attribs |}]> o
  | None => <[name := {| value := v; attributes := attribs |}]> o
  end.

(** [Object::ForceSet]: sets the property whatever its attributes. *)
Definition ForceSet (name : string) (v : jsval) (attribs : Z) (o : js_object)
  : js_object :=
  <[name := {| value := v; attributes := attribs |}]> o.

Definition ID_PROPERTY := "id".
Definition MESSAGE_PROPERTY := "message".
Definition TIME_PROPERTY := "time".
Definition AUTHOR_PROPERTY := "author".
Definition COMMITTER_PROPERTY := "committer".
Definition TREE_PROPERTY := "tree".
Definition PARENTCOUNT_PROPERTY := "parentCount".

(** ** The structures of commit.cc *)

(** [struct commit_data]: what [loadInitData] hands to [processInitData]. *)
Record commit_data := {
  id : string;
  message : string;
  author : git_signature;
  committer : git_signature;
  parentCount : Z
}.

(** [struct get_parent_request].  Its [commit] field points to the wrapper
    the request was made on, which is the wrapper the state carries. *)
Record get_parent_request := {
  callback : jsval;
  index : Z;
  parent : ptr
}.

(** A [Commit]: the script object [handle_] it wraps, the libgit2 commit
    [commit_], the local parent counter and the reference count of
    [ObjectWrap]. *)
Record Commit := {
  handle_ : js_object;
  commit_ : ptr;
  parentCount_ : Z;
  refs_ : Z
}.

(** ** The calls into libgit2 *)

(** The libgit2 functions commit.cc calls, each with the type of what it
    gives back (the result code together with the out-parameter, for the
    functions that have one). *)
Inductive git_call : Type -> Type :=
| git_commit_id (c : ptr) : git_call git_oid
| git_oid_fmt (oid : git_oid) : git_call string
| git_oid_allocfmt (oid : git_oid) : git_call string
| git_commit_message (c : ptr) : git_call string
| git_commit_author (c : ptr) : git_call git_signature
| git_commit_committer (c : ptr) : git_call git_signature
| git_signature_dup (s : git_signature) : git_call git_signature
| git_signature_free (s : git_signature) : git_call unit
| git_commit_parentcount (c : ptr) : git_call Z
| git_commit_tree (c : ptr) : git_call ptr
| git_oid_mkstr (s : string) : git_call (Z * git_oid)
| git_tree_lookup (oid : git_oid) : git_call (Z * ptr)
| git_commit_lookup (oid : git_oid) : git_call (Z * ptr)
| git_commit_set_tree (c : ptr) (tree : ptr) : git_call Z
| git_commit_parent (c : ptr) (n : Z) : git_call ptr
| git_commit_add_parent (c : ptr) (new_parent : ptr) : git_call Z
| git_commit_set_message (c : ptr) (msg : string) : git_call unit
| git_commit_set_committer (c : ptr) (s : git_signature) : git_call unit
| git_commit_set_author (c : ptr) (s : git_signature) : git_call unit
| git_object_write (c : ptr) : git_call Z.

(** The calls that go through the repository handle or one of its objects;
    the others only format, parse or copy a value the caller holds. *)
Definition touches_repository {R} (c : git_call R) : bool :=
  match c with
  | git_oid_fmt _ | git_oid_allocfmt _ | git_oid_mkstr _
  | git_signature_dup _ | git_signature_free _ => false
  | _ => true
  end.

(** The calls that change an object of the repository. *)
Definition mutates_repository {R} (c : git_call R) : bool :=
  match c with
  | git_commit_set_tree _ _ | git_commit_add_parent _ _
  | git_commit_set_message _ _ | git_commit_set_committer _ _
  | git_commit_set_author _ _ | git_object_write _ => true
  | _ => false
  end.

(** libgit2 is an external collaborator: a repository state [B] and the
    answer and the next state for each call. *)
Class LibGit2 (B : Type) := git_exec : forall {R}, git_call R -> B -> R * B.

(** The two conversions of gitteh.h between a [git_signature] and the script
    object of a person.  gitteh.h is not part of src/: the conversions are
    parameters of the model. *)
Class PersonConv := {
  signature_of_value : jsval -> option git_signature;
  person_of_signature : git_signature -> jsval
}.

(** ** Traces *)

(** What an operation does besides changing the wrapper, in the order it does
    it: it takes or releases the repository lock ([lockRepository] and
    [unlockRepository] of repository.h), calls libgit2, takes or gives back a
    reference on the wrapper, talks to the event loop ([eio_custom], [ev_ref],
    [ev_unref]), calls or disposes of the callback of a request, deletes the
    request, asks the object factory for a wrapper, or sets a property of the
    script object. *)
Inductive event :=
| lockRepository
| unlockRepository
| Git {R} (c : git_call R)
| Ref
| Unref
| ev_ref
| ev_unref
| eio_custom (req : get_parent_request)
| Call (f : jsval) (argv : list jsval)
| Dispose (f : jsval)
| delete_request
| syncRequestObject (t : template) (p : ptr)
| asyncRequestObject (t : template) (p : ptr) (f : jsval)
| SetProperty (name : string) (v : jsval).

Definition is_backend_call (e : event) : bool :=
  match e with
  | Git c => touches_repository c
  | _ => false
  end.

Definition is_backend_mutation (e : event) : bool :=
  match e with
  | Git c => mutates_repository c
  | _ => false
  end.

Definition is_write (e : event) : bool :=
  match e with
  | Git (git_object_write _) => true
  | _ => false
  end.

Definition is_parent_resolution (e : event) : bool :=
  match e with
  | Git (git_commit_parent _ _) => true
  | _ => false
  end.

Definition is_append (e : event) : bool :=
  match e with
  | Git (git_commit_add_parent _ _) => true
  | _ => false
  end.

Definition is_parentcount_read (e : event) : bool :=
  match e with
  | Git (git_commit_parentcount _) => true
  | _ => false
  end.

Definition is_lock_event (e : event) : bool :=
  match e with
  | lockRepository | unlockRepository => true
  | _ => false
  end.

Definition is_publish (e : event) : bool :=
  match e with SetProperty _ _ => true | _ => false end.

Definition is_callback (e : event) : bool :=
  match e with
  | Call _ _ | asyncRequestObject _ _ _ => true
  | _ => false
  end.

Definition is_ref (e : event) : bool :=
  match e with Ref => true | _ => false end.

Definition is_unref (e : event) : bool :=
  match e with Unref => true | _ => false end.

(** [lock_disciplined held t]: along [t], started with the lock held or not,
    every call through the repository is made with the lock held, the lock is
    never taken twice and never released when free. *)
Fixpoint lock_disciplined (held : bool) (t : list event) : bool :=
  match t with
  | [] => true
  | lockRepository :: t' => negb held && lock_disciplined true t'
  | unlockRepository :: t' => held && lock_disciplined false t'
  | e :: t' => (negb (is_backend_call e) || held) && lock_disciplined held t'
  end.

(** The events of [t] that happen with the lock held. *)
Fixpoint while_locked (held : bool) (t : list event) : list event :=
  match t with
  | [] => []
  | lockRepository :: t' => while_locked true t'
  | unlockRepository :: t' => while_locked false t'
  | e :: t' => (if held then [e] else []) ++ while_locked held t'
  end.

(** How many events of [t] are of the kind [p]. *)
Fixpoint count (p : event -> bool) (t : list event) : nat :=
  match t with
  | [] => 0%nat
  | e :: t' => ((if p e then 1 else 0) + count p t')%nat
  end.

(** ** The monad of the binding *)

(** How a function of the binding ends: it returns, or it leaves with a
    pending script exception ([ThrowException]). *)
Inductive completion (A : Type) :=
| Return (v : A)
| Throw (e : exception).
Arguments Return {A} v.
Arguments Throw {A} e.

Definition is_throw {A} (r : completion A) : bool :=
  match r with Throw _ => true | Return _ => false end.

Section Binding.

Context {B : Type} `{!LibGit2 B} `{!PersonConv}.

(** The state an operation works on: the wrapper it is called on and the
    repository behind libgit2. *)
Record St := {
  this : Commit;
  repo : B
}.

Definition M (A : Type) : Type := St -> completion A * St * list event.

#[local] Instance M_ret : MRet M := fun A v s => (Return v, s, []).

#[local] Instance M_bind : MBind M := fun A A' f m s =>
  match m s with
  | (Return v, s1, t1) =>
      match f v s1 with
      | (r, s2, t2) => (r, s2, t1 ++ t2)
      end
  | (Throw e, s1, t1) => (Throw e, s1, t1)
  end.

Definition throw {A} (e : exception) : M A := fun s => (Throw e, s, []).

Definition tell (e : event) : M unit := fun s => (Return tt, s, [e]).

(** [ObjectWrap::Unwrap<Commit>(args.This())]. *)
Definition Unwrap : M Commit := fun s => (Return (this s), s, []).

Definition with_this (f : Commit -> Commit) : M unit :=
  fun s => (Return tt, {| this := f (this s); repo := repo s |}, []).

(** A call into libgit2: recorded, answered by the repository. *)
Definition libgit2 {R} (c : git_call R) : M R := fun s =>
  match git_exec c (repo s) with
  | (r, b) => (Return r, {| this := this s; repo := b |}, [Git c])
  end.

Definition set_handle (h : js_object) (c : Commit) : Commit :=
  {| handle_ := h; commit_ := commit_ c;
     parentCount_ := parentCount_ c; refs_ := refs_ c |}.

Definition set_parentCount (n : Z) (c : Commit) : Commit :=
  {| handle_ := handle_ c; commit_ := commit_ c;
     parentCount_ := n; refs_ := refs_ c |}.

Definition set_refs (n : Z) (c : Commit) : Commit :=
  {| handle_ := handle_ c; commit_ := commit_ c;
     parentCount_ := parentCount_ c; refs_ := n |}.

(** [args.This()->Get(name)]. *)
Definition This_Get (name : string) : M jsval :=
  c ← Unwrap; mret (Get name (handle_ c)).

(** [jsObj->Set(name, v, attribs)] on the wrapper's script object. *)
Definition This_Set (name : string) (v : jsval) (attribs : Z) : M unit :=
  with_this (fun c => set_handle (Set_ name v attribs (handle_ c)) c);;
  tell (SetProperty name v).

(** [args.This()->ForceSet(name, v, attribs)]. *)
Definition This_ForceSet (name : string) (v : jsval) (attribs : Z) : M unit :=
  with_this (fun c => set_handle (ForceSet name v attribs (handle_ c)) c);;
  tell (SetProperty name v).

(** [args[i]]: undefined beyond the arguments given. *)
Definition arg (i : nat) (args : list jsval) : jsval := nth i args JSUndefined.

(** *** What commit.cc uses of gitteh.h, repository.h and object_factory.h *)

(** Modelled from the spec: [THROW_ERROR] of gitteh.h, which is not part of
    src/.  The function is left with an [Error] of the given message. *)
Definition THROW_ERROR {A} (msg : string) : M A := throw (Error msg).

(** Modelled from the spec: [THROW_GIT_ERROR] of gitteh.h.  The function is
    left with an error of the given message and libgit2 result code. *)
Definition THROW_GIT_ERROR {A} (msg : string) (res : Z) : M A :=
  throw (GitError msg res).

(** Modelled from the spec: [REQ_ARGS] of gitteh.h, which is not part of
    src/.  A call with fewer arguments than required is refused. *)
Definition REQ_ARGS (n : nat) (args : list jsval) : M unit :=
  if (length args <? n)%nat then throw (ArgumentError "REQ_ARGS" n)
  else mret tt.

(** Modelled from the spec: [REQ_INT_ARG] of gitteh.h.  The argument must be
    a 32-bit integer; its value is the C++ [int]. *)
Definition REQ_INT_ARG (i : nat) (args : list jsval) : M Z :=
  match arg i args with
  | JSInt32 n => mret n
  | _ => throw (ArgumentError "REQ_INT_ARG" i)
  end.

(** Modelled from the spec: [REQ_FUN_ARG] of gitteh.h.  The argument must be
    a function. *)
Definition REQ_FUN_ARG (i : nat) (args : list jsval) : M jsval :=
  match arg i args with
  | JSFunction f => mret (JSFunction f)
  | _ => throw (ArgumentError "REQ_FUN_ARG" i)
  end.

(** Modelled from the spec: [CHECK_PROPERTY] of gitteh.h.  A required
    property of the wrapper must be there: neither undefined nor null. *)
Definition CHECK_PROPERTY (name : string) : M unit :=
  v ← This_Get name;
  match v with
  | JSUndefined | JSNull => throw (PropertyError "CHECK_PROPERTY" name)
  | _ => mret tt
  end.

(** Modelled from the spec: [GET_SIGNATURE_PROPERTY] of gitteh.h.  The
    property must convert to a [git_signature]. *)
Definition GET_SIGNATURE_PROPERTY (name : string) : M git_signature :=
  v ← This_Get name;
  match signature_of_value v with
  | Some s => mret s
  | None => throw (PropertyError "GET_SIGNATURE_PROPERTY" name)
  end.

(** Modelled from the spec: [TRIGGER_CALLBACK] of gitteh.h.  The callback of
    the request is called with [callbackArgs]. *)
Definition TRIGGER_CALLBACK (f : jsval) (callbackArgs : list jsval) : M unit :=
  tell (Call f callbackArgs).

(** Modelled from the spec: [ObjectWrap::Ref] and [ObjectWrap::Unref], which
    count the references that keep the wrapper alive. *)
Definition Commit_Ref : M unit :=
  with_this (fun c => set_refs (refs_ c + 1) c);; tell Ref.

Definition Commit_Unref : M unit :=
  with_this (fun c => set_refs (refs_ c - 1) c);; tell Unref.

(** Modelled from the spec: [syncRequestObject] of the object factory, which
    gives the wrapper of a libgit2 object; the caller takes its [handle_]. *)
Definition factory_syncRequestObject (t : template) (p : ptr) : M jsval :=
  tell (syncRequestObject t p);; mret (JSInstance t p).

(** Modelled from the spec: [asyncRequestObject] of the object factory, which
    takes over the callback and calls it once the wrapper is there. *)
Definition factory_asyncRequestObject (t : template) (p : ptr) (f : jsval)
  : M unit :=
  tell (asyncRequestObject t p f).

(** *** commit.cc *)

(** [Commit::loadInitData]. *)
Definition loadInitData : M commit_data :=
  c ← Unwrap;
  tell lockRepository;;
  commitId ← libgit2 (git_commit_id (commit_ c));
  data_id ← libgit2 (git_oid_fmt commitId);
  data_message ← libgit2 (git_commit_message (commit_ c));
  a ← libgit2 (git_commit_author (commit_ c));
  data_author ← libgit2 (git_signature_dup a);
  cm ← libgit2 (git_commit_committer (commit_ c));
  data_committer ← libgit2 (git_signature_dup cm);
  n ← libgit2 (git_commit_parentcount (commit_ c));
  tell unlockRepository;;
  mret {| id := data_id; message := data_message; author := data_author;
          committer := data_committer; parentCount := int32 n |}.

(** [Commit::processInitData]; [None] is the NULL of a new commit. *)
Definition processInitData (data : option commit_data) : M unit :=
  match data with
  | Some commitData =>
      This_Set ID_PROPERTY (JSString (id commitData))
        (Z.lor ReadOnly DontDelete);;
      This_Set MESSAGE_PROPERTY (JSString (message commitData)) None_;;
      This_Set AUTHOR_PROPERTY (person_of_signature (author commitData))
        None_;;
      This_Set COMMITTER_PROPERTY
        (person_of_signature (committer commitData)) None_;;
      with_this (set_parentCount (parentCount commitData));;
      c ← Unwrap;
      This_Set PARENTCOUNT_PROPERTY (JSInt32 (parentCount_ c))
        (Z.lor ReadOnly DontDelete);;
      libgit2 (git_signature_free (author commitData));;
      libgit2 (git_signature_free (committer commitData));;
      mret tt
  | None =>
      This_Set ID_PROPERTY JSNull (Z.lor ReadOnly DontDelete);;
      This_Set MESSAGE_PROPERTY JSNull None_;;
      This_Set AUTHOR_PROPERTY JSNull None_;;
      This_Set COMMITTER_PROPERTY JSNull None_;;
      with_this (set_parentCount 0);;
      This_Set PARENTCOUNT_PROPERTY (JSInt32 0) (Z.lor ReadOnly DontDelete)
  end.

(** [Commit::GetTree]. *)
Definition GetTree (args : list jsval) : M jsval :=
  commit ← Unwrap;
  tree ← libgit2 (git_commit_tree (commit_ commit));
  if tree =? NULL then mret JSNull
  else factory_syncRequestObject TreeTemplate tree.

(** [Commit::SetTree].  The local [tree] is declared without a value:
    [tree0] is what it holds when neither branch assigns it. *)
Definition SetTree (tree0 : ptr) (args : list jsval) : M jsval :=
  commit ← Unwrap;
  tree ←
    match arg 0 args with
    | JSString s =>
        r ← libgit2 (git_oid_mkstr s);
        if negb (r.1 =? GIT_SUCCESS) then THROW_GIT_ERROR "Id is invalid" r.1
        else
          l ← libgit2 (git_tree_lookup r.2);
          if negb (l.1 =? GIT_SUCCESS)
          then THROW_GIT_ERROR "Error locating tree" l.1
          else mret l.2
    | JSInstance TreeTemplate tree_ => mret tree_
    | _ => mret tree0
    end;
  libgit2 (git_commit_set_tree (commit_ commit) tree);;
  mret JSUndefined.

(** [Commit::GetParent]. *)
Definition GetParent (args : list jsval) : M jsval :=
  commit ← Unwrap;
  REQ_ARGS 1 args;;
  indexArg ← REQ_INT_ARG 0 args;
  if indexArg >=? parentCount_ commit
  then THROW_ERROR "Parent commit index is out of bounds."
  else if (1 <? length args)%nat then
    callbackArg ← REQ_FUN_ARG (length args - 1) args;
    Commit_Ref;;
    tell (eio_custom {| callback := callbackArg; index := indexArg;
                        parent := NULL |});;
    tell ev_ref;;
    mret JSUndefined
  else
    tell lockRepository;;
    parent ← libgit2 (git_commit_parent (commit_ commit) indexArg);
    tell unlockRepository;;
    if parent =? NULL then THROW_ERROR "Error getting parent."
    else factory_syncRequestObject CommitTemplate parent.

(** [Commit::EIO_GetParent], the step a worker thread runs: the request
    comes back with its [parent] assigned, next to the 0 the function
    returns. *)
Definition EIO_GetParent (reqData : get_parent_request)
  : M (get_parent_request * Z) :=
  commit ← Unwrap;
  tell lockRepository;;
  p ← libgit2 (git_commit_parent (commit_ commit) (index reqData));
  tell unlockRepository;;
  mret ({| callback := callback reqData; index := index reqData;
           parent := p |}, 0).

(** [Commit::EIO_AfterGetParent], the completion the event loop runs. *)
Definition EIO_AfterGetParent (reqData : get_parent_request) : M Z :=
  tell ev_unref;;
  Commit_Unref;;
  (if parent reqData =? NULL then
     TRIGGER_CALLBACK (callback reqData)
       [JSException (Error "Couldn't get parent commit."); JSNull];;
     tell (Dispose (callback reqData))
   else
     factory_asyncRequestObject CommitTemplate (parent reqData)
       (callback reqData));;
  tell delete_request;;
  mret 0.

(** [Commit::AddParent]. *)
Definition AddParent (args : list jsval) : M jsval :=
  commit ← Unwrap;
  REQ_ARGS 1 args;;
  parentCommit ←
    match arg 0 args with
    | JSString s =>
        r ← libgit2 (git_oid_mkstr s);
        if negb (r.1 =? GIT_SUCCESS) then THROW_GIT_ERROR "Id is invalid" r.1
        else
          l ← libgit2 (git_commit_lookup r.2);
          if negb (l.1 =? GIT_SUCCESS)
          then THROW_GIT_ERROR "Error locating commit" l.1
          else mret l.2
    | JSInstance CommitTemplate otherCommit_commit_ => mret otherCommit_commit_
    | _ => THROW_ERROR "Invalid argument."
    end;
  libgit2 (git_commit_add_parent (commit_ commit) parentCommit);;
  with_this (fun c => set_parentCount (int32 (parentCount_ c + 1)) c);;
  c ← Unwrap;
  This_ForceSet "parentCount" (JSInt32 (parentCount_ c))
    (Z.lor ReadOnly DontDelete);;
  mret JSUndefined.

(** [Commit::Save]. *)
Definition Save (args : list jsval) : M jsval :=
  commit ← Unwrap;
  CHECK_PROPERTY MESSAGE_PROPERTY;;
  v ← This_Get MESSAGE_PROPERTY;
  let message := ToString v in
  if (String.length message =? 0)%nat
  then THROW_ERROR "Message must not be empty."
  else
    author ← GET_SIGNATURE_PROPERTY AUTHOR_PROPERTY;
    committer ← GET_SIGNATURE_PROPERTY COMMITTER_PROPERTY;
    libgit2 (git_commit_set_message (commit_ commit) message);;
    libgit2 (git_commit_set_committer (commit_ commit) committer);;
    libgit2 (git_commit_set_author (commit_ commit) author);;
    result ← libgit2 (git_object_write (commit_ commit));
    if negb (result =? GIT_SUCCESS)
    then throw (Error "Failed to save commit object.")
    else
      commitId ← libgit2 (git_commit_id (commit_ commit));
      oidStr ← libgit2 (git_oid_allocfmt commitId);
      This_ForceSet ID_PROPERTY (JSString oidStr)
        (Z.lor ReadOnly DontDelete);;
      mret (JSBoolean true).

(** *** How the collaborators drive the binding *)

(** Modelled from the spec: the load step of the object factory
    (object_factory.h is not part of src/), which runs [loadInitData] and
    hands what it returns to [processInitData]. *)
Definition load : M unit :=
  data ← loadInitData;
  processInitData (Some data).

(** Modelled from the spec: what the event loop does with a request handed
    to [eio_custom]: the worker step, then the completion on the caller's
    thread. *)
Definition eio_run (req : get_parent_request) : M Z :=
  r ← EIO_GetParent req;
  EIO_AfterGetParent r.1.

(** The requests a trace hands to [eio_custom]. *)
Fixpoint submitted (t : list event) : list get_parent_request :=
  match t with
  | [] => []
  | eio_custom req :: t' => req :: submitted t'
  | _ :: t' => submitted t'
  end.

(** A sequence of calls of one operation on the wrapper, whatever each call
    ends with: the completions, the final state and the whole trace. *)
Fixpoint calls (op : list jsval -> M jsval) (argss : list (list jsval))
  (s : St) : list (completion jsval) * St * list event :=
  match argss with
  | [] => ([], s, [])
  | args :: rest =>
      match op args s with
      | (r, s1, t1) =>
          match calls op rest s1 with
          | (rs, s2, t2) => (r :: rs, s2, t1 ++ t2)
          end
      end
  end.

(** The calls of a sequence that returned. *)
Fixpoint returned {A} (rs : list (completion A)) : Z :=
  match rs with
  | [] => 0
  | Return _ :: rs' => 1 + returned rs'
  | Throw _ :: rs' => returned rs'
  end.

(** A required property that is not there. *)
Definition absent (v : jsval) : bool :=
  match v with
  | JSUndefined | JSNull => true
  | _ => false
  end.

(** A reference to an entity of kind [t]: its id as a string, or a wrapper
    of that kind. *)
Definition entity_ref (t : template) (v : jsval) : bool :=
  match v, t with
  | JSString _, _ => true
  | JSInstance CommitTemplate _, CommitTemplate => true
  | JSInstance TreeTemplate _, TreeTemplate => true
  | _, _ => false
  end.

(** The wrapper shows the parent count it holds. *)
Definition shows_parentCount (c : Commit) : Prop :=
  Get PARENTCOUNT_PROPERTY (handle_ c) = JSInt32 (parentCount_ c).

(** The wrapper after an [AddParent] that went through. *)
Definition parent_added (c : Commit) : Commit :=
  set_handle
    (ForceSet "parentCount" (JSInt32 (int32 (parentCount_ c + 1)))
       (Z.lor ReadOnly DontDelete) (handle_ c))
    (set_parentCount (int32 (parentCount_ c + 1)) c).

(** The exception of the bound check of [GetParent]. *)
Definition out_of_bounds : exception :=
  Error "Parent commit index is out of bounds.".

(** The request [GetParent] hands to the event loop. *)
Definition request_of (f : string) (idx : Z) : get_parent_request :=
  {| callback := JSFunction f; index := idx; parent := NULL |}.

End Binding.

Arguments St B : clear implicits.
Arguments M B A : clear implicits.

(** ** A small repository to run the binding on

    One commit object under edit, a table of the objects that can be looked
    up by id, and the result codes the next append and the next write give
    back. *)
Module Sample.

Record repository := {
  head_oid : git_oid;
  head_message : string;
  head_author : git_signature;
  head_committer : git_signature;
  head_parents : list ptr;
  head_tree : ptr;
  objects : list (git_oid * ptr);
  append_result : Z;
  write_result : Z
}.

Definition hex_digit (n : N) : Ascii.ascii :=
  Ascii.ascii_of_N (if (n <? 10)%N then 48 + n else 87 + n)%N.

Definition digit_of_hex (a : Ascii.ascii) : option N :=
  let n := Ascii.N_of_ascii a in
  if ((48 <=? n) && (n <=? 57))%N then Some (n - 48)%N
  else if ((97 <=? n) && (n <=? 102))%N then Some (n - 87)%N
  else if ((65 <=? n) && (n <=? 70))%N then Some (n - 55)%N
  else None.

Fixpoint fmt (oid : git_oid) : string :=
  match oid with
  | [] => EmptyString
  | x :: rest =>
      let n := Byte.to_N x in
      String (hex_digit (n / 16)) (String (hex_digit (n mod 16)) (fmt rest))
  end.

Fixpoint mkstr (s : string) : option git_oid :=
  match s with
  | EmptyString => Some []
  | String a (String a' rest) =>
      match digit_of_hex a, digit_of_hex a', mkstr rest with
      | Some h, Some l, Some oid =>
          match Byte.of_N (16 * h + l) with
          | Some x => Some (x :: oid)
          | None => None
          end
      | _, _, _ => None
      end
  | String _ EmptyString => None
  end.

Definition oid_eqb (a b : git_oid) : bool := String.eqb (fmt a) (fmt b).

Fixpoint find_object (oid : git_oid) (l : list (git_oid * ptr)) : option ptr :=
  match l with
  | [] => None
  | (o, p) :: rest => if oid_eqb oid o then Some p else find_object oid rest
  end.

Definition lookup (oid : git_oid) (b : repository) : Z * ptr :=
  match find_object oid (objects b) with
  | Some p => (GIT_SUCCESS, p)
  | None => (-3, NULL)
  end.

Definition with_head (b : repository) (msg : string)
  (a cm : git_signature) (ps : list ptr) (tree : ptr) : repository :=
  {| head_oid := head_oid b; head_message := msg; head_author := a;
     head_committer := cm; head_parents := ps; head_tree := tree;
     objects := objects b; append_result := append_result b;
     write_result := write_result b |}.

Definition exec {R} (c : git_call R) : repository -> R * repository :=
  match c in git_call R return repository -> R * repository with
  | git_commit_id _ => fun b => (head_oid b, b)
  | git_oid_fmt oid => fun b => (fmt oid, b)
  | git_oid_allocfmt oid => fun b => (fmt oid, b)
  | git_commit_message _ => fun b => (head_message b, b)
  | git_commit_author _ => fun b => (head_author b, b)
  | git_commit_committer _ => fun b => (head_committer b, b)
  | git_signature_dup s => fun b => (s, b)
  | git_signature_free _ => fun b => (tt, b)
  | git_commit_parentcount _ =>
      fun b => (Z.of_nat (length (head_parents b)), b)
  | git_commit_tree _ => fun b => (head_tree b, b)
  | git_oid_mkstr s =>
      fun b =>
        match mkstr s with
        | Some oid =>
            if (length oid =? 20)%nat then (GIT_SUCCESS, oid, b)
            else (-2, [], b)
        | None => (-2, [], b)
        end
  | git_tree_lookup oid => fun b => (lookup oid b, b)
  | git_commit_lookup oid => fun b => (lookup oid b, b)
  | git_commit_set_tree _ tree =>
      fun b =>
        (GIT_SUCCESS,
         with_head b (head_message b) (head_author b) (head_committer b)
           (head_parents b) tree)
  | git_commit_parent _ n =>
      fun b =>
        (if n <? 0 then NULL else nth (Z.to_nat n) (head_parents b) NULL, b)
  | git_commit_add_parent _ p =>
      fun b =>
        if append_result b =? GIT_SUCCESS then
          (GIT_SUCCESS,
           with_head b (head_message b) (head_author b) (head_committer b)
             (head_parents b ++ [p]) (head_tree b))
        else (append_result b, b)
  | git_commit_set_message _ msg =>
      fun b =>
        (tt, with_head b msg (head_author b) (head_committer b)
               (head_parents b) (head_tree b))
  | git_commit_set_committer _ s =>
      fun b =>
        (tt, with_head b (head_message b) (head_author b) s
               (head_parents b) (head_tree b))
  | git_commit_set_author _ s =>
      fun b =>
        (tt, with_head b (head_message b) s (head_committer b)
               (head_parents b) (head_tree b))
  | git_object_write _ => fun b => (write_result b, b)
  end.

#[export] Instance backend : LibGit2 repository := @exec.

(** A person is an object with a name, an e-mail address and a time. *)
Definition to_signature (v : jsval) : option git_signature :=
  match v with
  | JSObject [("name", JSString n); ("email", JSString e);
              ("time", JSInt32 t)] =>
      Some {| sig_name := n; sig_email := e; sig_time := t; sig_offset := 0 |}
  | _ => None
  end.

Definition to_person (s : git_signature) : jsval :=
  JSObject [("name", JSString (sig_name s)); ("email", JSString (sig_email s));
            ("time", JSInt32 (sig_time s))].

#[export] Instance persons : PersonConv :=
  {| signature_of_value := to_signature; person_of_signature := to_person |}.

Definition sam : git_signature :=
  {| sig_name := "Sam"; sig_email := "sam@example.org";
     sig_time := 1300000000; sig_offset := 0 |}.

Definition empty_tree_id : string := "4b825dc642cb6eb9a060e54bf8d69288fbee4904".

Definition an_oid : git_oid := default [] (mkstr empty_tree_id).

(** A repository whose commit has the message "initial" and one parent. *)
Definition repo0 : repository :=
  {| head_oid := an_oid; head_message := "initial"; head_author := sam;
     head_committer := sam; head_parents := [4096]; head_tree := 8192;
     objects := [(an_oid, 4096)]; append_result := GIT_SUCCESS;
     write_result := GIT_SUCCESS |}.

(** A repository whose commit has no parent yet, and where the append and
    the write fail. *)
Definition failing_repo : repository :=
  {| head_oid := an_oid; head_message := ""; head_author := sam;
     head_committer := sam; head_parents := []; head_tree := NULL;
     objects := [(an_oid, 4096)]; append_result := -1;
     write_result := -1 |}.

(** A wrapper just allocated on the libgit2 commit at [c]: no property yet. *)
Definition fresh (c : ptr) : Commit :=
  {| handle_ := ∅; commit_ := c; parentCount_ := 0; refs_ := 0 |}.

Definition state_of (w : Commit) (b : repository) : St repository :=
  {| this := w; repo := b |}.

(** The wrapper of a new commit: [processInitData(NULL)] on a fresh one. *)
Definition new_commit : Commit :=
  this (processInitData None (state_of (fresh 1024) repo0)).1.2.

(** The wrapper of the commit of [repo0], loaded. *)
Definition loaded_commit : Commit :=
  this (load (state_of (fresh 1024) repo0)).1.2.

(** A new commit with a message, an author and a committer set by the
    caller. *)
Definition described (msg : jsval) : Commit :=
  set_handle
    (Set_ COMMITTER_PROPERTY (to_person sam) None_
       (Set_ AUTHOR_PROPERTY (to_person sam) None_
          (Set_ MESSAGE_PROPERTY msg None_ (handle_ new_commit))))
    new_commit.

(** The states the examples start from. *)
Definition loaded : St repository := state_of loaded_commit repo0.
Definition created : St repository := state_of new_commit repo0.
Definition empty_message : St repository :=
  state_of (described (JSString "")) repo0.
Definition ready : St repository :=
  state_of (described (JSString "hello")) repo0.
Definition ready_failing : St repository :=
  state_of (described (JSString "hello")) failing_repo.
Definition created_failing : St repository :=
  state_of new_commit failing_repo.

(** Three calls of [AddParent]: a wrapper, a number, an id. *)
Definition three_calls : list (list jsval) :=
  [[JSInstance CommitTemplate 4096]; [JSInt32 3]; [JSString empty_tree_id]].

(** A new commit after one [AddParent] whose append failed: the wrapper
    counts one parent, the repository has none. *)
Definition miscounted : St repository :=
  (AddParent [JSInstance CommitTemplate 4096] created_failing).1.2.

(** More states to run the binding on. *)
Definition unallocated : St repository := state_of (fresh 1024) repo0.

(** A new commit with a message and nothing else. *)
Definition only_message : St repository :=
  state_of
    (set_handle (Set_ MESSAGE_PROPERTY (JSString "hello") None_
                   (handle_ new_commit)) new_commit)
    repo0.

(** A new commit with a message and an author, no committer. *)
Definition no_committer : St repository :=
  state_of
    (set_handle
       (Set_ AUTHOR_PROPERTY (to_person sam) None_
          (Set_ MESSAGE_PROPERTY (JSString "hello") None_
             (handle_ new_commit))) new_commit)
    repo0.

(** An id no object of the repository has. *)
Definition unknown_id : string := "00000000000000000000000000000000000000ff".

End Sample.

(** ** More about traces and about the repository *)

(** The lock after [t], started with the lock held or not. *)
Fixpoint held_after (held : bool) (t : list event) : bool :=
  match t with
  | [] => held
  | lockRepository :: t' => held_after true t'
  | unlockRepository :: t' => held_after false t'
  | _ :: t' => held_after held t'
  end.

Definition is_factory_request (e : event) : bool :=
  match e with
  | syncRequestObject _ _ | asyncRequestObject _ _ _ => true
  | _ => false
  end.

Definition is_lookup (e : event) : bool :=
  match e with
  | Git (git_tree_lookup _) | Git (git_commit_lookup _) => true
  | _ => false
  end.

Definition is_call (e : event) : bool :=
  match e with Call _ _ => true | _ => false end.

Definition is_dispose (e : event) : bool :=
  match e with Dispose _ => true | _ => false end.

Definition is_ev_ref (e : event) : bool :=
  match e with ev_ref => true | _ => false end.

Definition is_ev_unref (e : event) : bool :=
  match e with ev_unref => true | _ => false end.

Definition is_delete (e : event) : bool :=
  match e with delete_request => true | _ => false end.

(** What the repository answers to a call, and the repository after it. *)
Definition answer {B : Type} `{!LibGit2 B} {R} (c : git_call R) (b : B) : R :=
  (git_exec c b).1.

Definition after {B : Type} `{!LibGit2 B} {R} (c : git_call R) (b : B) : B :=
  (git_exec c b).2.

(** ** The constructor *)

(** What [Commit::New] can be called with: the script values of the other
    operations, or an [External] that carries a native pointer. *)
Inductive new_arg :=
| External (value : ptr)
| Value (v : jsval).

(** [Commit::New].  [This] is the script object under construction, which
    the new wrapper wraps.  The constructor [Commit()] assigns no parent
    count: [parentCount0] is what the field holds until [processInitData]
    assigns it.  A wrapper starts with no reference taken.

    Modelled from the spec: [REQ_EXT_ARG] of gitteh.h, which is not part of
    src/.  The argument must be an [External]. *)
Definition New (parentCount0 : Z) (This : js_object) (args : list new_arg)
  : completion Commit :=
  if (length args <? 1)%nat then Throw (ArgumentError "REQ_ARGS" 1)
  else
    match nth 0 args (Value JSUndefined) with
    | External theCommit =>
        Return {| handle_ := This; commit_ := theCommit;
                  parentCount_ := parentCount0; refs_ := 0 |}
    | Value _ => Throw (ArgumentError "REQ_EXT_ARG" 0)
    end.

(** * Properties *)

Arguments Get : simpl never.
Arguments Set_ : simpl never.
Arguments ForceSet : simpl never.
Arguments int32 : simpl never.
Arguments ToString : simpl nomatch.

Ltac unfold_binding :=
  unfold Save, AddParent, GetParent, EIO_GetParent, EIO_AfterGetParent,
    SetTree, GetTree, load, eio_run, loadInitData, processInitData,
    CHECK_PROPERTY, GET_SIGNATURE_PROPERTY, REQ_ARGS, REQ_INT_ARG,
    REQ_FUN_ARG, TRIGGER_CALLBACK, THROW_ERROR, THROW_GIT_ERROR,
    Commit_Ref, Commit_Unref, factory_syncRequestObject,
    factory_asyncRequestObject, This_Get, This_Set, This_ForceSet,
    with_this, Unwrap, libgit2, tell, throw,
    mbind, M_bind, mret, M_ret in *.

(** One step of running a computation: case analysis on a test the
    computation makes that contains no other test. *)
Ltac branch :=
  match goal with
  | |- context [match ?x with _ => _ end] =>
      lazymatch x with
      | context [match _ with _ => _ end] => fail
      | _ => destruct x eqn:?
      end
  end.

(** What the case analyses found about the properties of the wrapper is
    used wherever the property is read again. *)
Ltac recall :=
  repeat match goal with
  | H : Get ?n ?o = _, H' : context [Get ?n ?o] |- _ => rewrite H in H'
  | H : Get ?n ?o = _ |- context [Get ?n ?o] => rewrite H
  end;
  simpl in *.

Ltac run := unfold_binding; simpl; repeat (branch; simpl in *); recall.

Section Properties.

Context {B : Type} `{!LibGit2 B} `{!PersonConv}.

Implicit Types (s : St B) (args : list jsval).

(** ** save *)

(** What [Save] does when the message is not there. *)
Lemma Save_message_absent args s :
  absent (Get MESSAGE_PROPERTY (handle_ (this s))) = true ->
  Save args s = (Throw (PropertyError "CHECK_PROPERTY" MESSAGE_PROPERTY), s, []).
Proof.
  intros Habs. run; try discriminate; reflexivity.
Qed.

(** What [Save] does when the message is there and empty. *)
Lemma Save_message_empty args s :
  absent (Get MESSAGE_PROPERTY (handle_ (this s))) = false ->
  ToString (Get MESSAGE_PROPERTY (handle_ (this s))) = "" ->
  Save args s = (Throw (Error "Message must not be empty."), s, []).
Proof.
  intros Habs Hempty. run; try discriminate; try reflexivity.
  all: rewrite Hempty in *; discriminate.
Qed.

(** What [Save] does when the message, the author and the committer are
    there: the three setters, then one write. *)
Lemma Save_reaches_write args s a cm :
  absent (Get MESSAGE_PROPERTY (handle_ (this s))) = false ->
  ToString (Get MESSAGE_PROPERTY (handle_ (this s))) <> "" ->
  signature_of_value (Get AUTHOR_PROPERTY (handle_ (this s))) = Some a ->
  signature_of_value (Get COMMITTER_PROPERTY (handle_ (this s))) = Some cm ->
  exists t,
    (Save args s).2 =
      Git (git_commit_set_message (commit_ (this s))
             (ToString (Get MESSAGE_PROPERTY (handle_ (this s)))))
      :: Git (git_commit_set_committer (commit_ (this s)) cm)
      :: Git (git_commit_set_author (commit_ (this s)) a)
      :: Git (git_object_write (commit_ (this s))) :: t
    /\ count is_write t = 0%nat.
Proof.
  intros Habs Hmsg Ha Hcm.
  assert (Hlen : (String.length
                    (ToString (Get MESSAGE_PROPERTY (handle_ (this s)))) =? 0)%nat
                 = false).
  { destruct (ToString (Get MESSAGE_PROPERTY (handle_ (this s))));
      [congruence | reflexivity]. }
  run; try discriminate; try congruence.
  all: repeat match goal with
       | H : signature_of_value _ = Some _ |- _ => rewrite H in *
       end.
  all: try congruence.
  all: repeat match goal with
       | H : Some _ = Some _ |- _ => injection H as ->
       end.
  all: eexists; split; [reflexivity | reflexivity].
Qed.

(** A failed [Save] has not touched the wrapper. *)
Lemma Save_throw_this args s :
  is_throw (Save args s).1.1 = true -> (Save args s).1.2.(this) = this s.
Proof.
  run; intros; try discriminate; reflexivity.
Qed.

(** C1. Fail-fast save.  When the message of the wrapper is absent
    (undefined or null) or empty, [Save] fails with the validation error of
    the missing or empty message, and it has made no call at all by then: its
    trace is empty, so neither the backend write nor any other backend call
    was made, and the state is the one it started from.  When the message is
    there and not empty and the author and the committer convert to
    signatures, the trace of [Save] contains exactly one [git_object_write]. *)
Theorem Save_fail_fast args s :
  (absent (Get MESSAGE_PROPERTY (handle_ (this s))) = true \/
   ToString (Get MESSAGE_PROPERTY (handle_ (this s))) = "" ->
   exists e,
     Save args s = (Throw e, s, []) /\
     (e = PropertyError "CHECK_PROPERTY" MESSAGE_PROPERTY \/
      e = Error "Message must not be empty."))
  /\
  (absent (Get MESSAGE_PROPERTY (handle_ (this s))) = false ->
   ToString (Get MESSAGE_PROPERTY (handle_ (this s))) <> "" ->
   is_Some (signature_of_value (Get AUTHOR_PROPERTY (handle_ (this s)))) ->
   is_Some (signature_of_value (Get COMMITTER_PROPERTY (handle_ (this s)))) ->
   count is_write (Save args s).2 = 1%nat).
Proof.
  split.
  - intros Hmsg.
    destruct (absent (Get MESSAGE_PROPERTY (handle_ (this s)))) eqn:Habs.
    + eexists. split; [apply Save_message_absent; exact Habs | by left].
    + destruct Hmsg as [? | Hempty]; [discriminate |].
      eexists. split; [apply Save_message_empty; assumption | by right].
  - intros Habs Hmsg [a Ha] [cm Hcm].
    destruct (Save_reaches_write args s a cm Habs Hmsg Ha Hcm) as (t & -> & Ht).
    simpl. rewrite Ht. reflexivity.
Qed.

(** C4. No partial identity.  Whenever [Save] fails, with whatever
    exception, the wrapper after the call is the wrapper before it: no
    property of its script object, and in particular not its [id], and no
    field of the C++ object has changed. *)
Theorem Save_failure_leaves_wrapper args s e s' t :
  Save args s = (Throw e, s', t) ->
  this s' = this s /\
  Get ID_PROPERTY (handle_ (this s')) = Get ID_PROPERTY (handle_ (this s)).
Proof.
  intros Hsave.
  pose proof (Save_throw_this args s) as Hthis.
  rewrite Hsave in Hthis. simpl in Hthis.
  rewrite (Hthis eq_refl). split; reflexivity.
Qed.

(** ** getTree, setTree *)

Lemma GetTree_trace args s :
  exists t, (GetTree args s).2 = Git (git_commit_tree (commit_ (this s))) :: t.
Proof. run; eexists; reflexivity. Qed.

(** C2. Lock discipline.  [GetTree] calls [git_commit_tree] on the commit of
    the wrapper, a call through the repository, and it takes the repository
    lock nowhere: on every state and for all arguments its trace begins with
    that call and is not lock-disciplined. *)
Theorem GetTree_backend_call_without_lock args s :
  (exists t, (GetTree args s).2 = Git (git_commit_tree (commit_ (this s))) :: t)
  /\ count is_lock_event (GetTree args s).2 = 0%nat
  /\ lock_disciplined false (GetTree args s).2 = false.
Proof.
  split; [apply GetTree_trace |].
  run; split; reflexivity.
Qed.

(** [SetTree] with an argument that is neither a string nor a Tree: no
    branch assigns [tree], and [git_commit_set_tree] is called with what the
    local happened to hold. *)
Lemma SetTree_neither tree0 args s :
  entity_ref TreeTemplate (arg 0 args) = false ->
  SetTree tree0 args s =
    (Return JSUndefined,
     {| this := this s;
        repo := (git_exec (git_commit_set_tree (commit_ (this s)) tree0)
                   (repo s)).2 |},
     [Git (git_commit_set_tree (commit_ (this s)) tree0)]).
Proof.
  intros Href. unfold_binding. simpl.
  destruct (arg 0 args) as [| | | | | | | [] |]; simpl in *;
    try discriminate;
    destruct (git_exec _ _); reflexivity.
Qed.

(** C5. Wrong argument kind.  [SetTree] called with the number 42, neither
    an id string nor a Tree wrapper, throws nothing: it returns undefined
    after calling [git_commit_set_tree] on the commit of the wrapper with the
    unassigned local [tree], whatever that holds. *)
Theorem SetTree_wrong_kind_not_refused tree0 s :
  (SetTree tree0 [JSInt32 42] s).1.1 = Return JSUndefined /\
  (SetTree tree0 [JSInt32 42] s).2 =
    [Git (git_commit_set_tree (commit_ (this s)) tree0)] /\
  count is_backend_mutation (SetTree tree0 [JSInt32 42] s).2 = 1%nat.
Proof.
  rewrite SetTree_neither by reflexivity. repeat split.
Qed.

(** The same mistake is refused by [AddParent]. *)
Lemma AddParent_neither args s :
  (1 <= length args)%nat ->
  entity_ref CommitTemplate (arg 0 args) = false ->
  AddParent args s = (Throw (Error "Invalid argument."), s, []).
Proof.
  intros Hlen Href. unfold_binding. simpl.
  destruct (length args <? 1)%nat eqn:Hl; [apply Nat.ltb_lt in Hl; lia |].
  simpl.
  destruct (arg 0 args) as [| | | | | | | [] |]; simpl in *;
    try discriminate; reflexivity.
Qed.

(** ** addParent *)

Lemma Get_ForceSet name v attribs (o : js_object) :
  Get name (ForceSet name v attribs o) = v.
Proof. unfold Get, ForceSet. by rewrite lookup_insert_eq. Qed.

Lemma Get_ForceSet_ne name name' v attribs (o : js_object) :
  name <> name' -> Get name' (ForceSet name v attribs o) = Get name' o.
Proof. intros Hne. unfold Get, ForceSet. by rewrite lookup_insert_ne. Qed.

Lemma lookup_Set_ne name name' v attribs (o : js_object) :
  name <> name' -> Set_ name v attribs o !! name' = o !! name'.
Proof.
  intros Hne. unfold Set_.
  destruct (o !! name) as [p |]; [destruct (Z.testbit (attributes p) 0) |];
    by rewrite ?lookup_insert_ne.
Qed.

Lemma Get_Set_fresh name v attribs (o : js_object) :
  o !! name = None -> Get name (Set_ name v attribs o) = v.
Proof.
  intros Hfresh. unfold Get, Set_. rewrite Hfresh. by rewrite lookup_insert_eq.
Qed.

(** The two ways [AddParent] ends: it throws before the append and leaves
    the wrapper as it was, or it appends once, counts and returns. *)
Lemma AddParent_cases args s :
  count is_parentcount_read (AddParent args s).2 = 0%nat /\
  ((is_throw (AddParent args s).1.1 = true /\
    (AddParent args s).1.2.(this) = this s /\
    count is_append (AddParent args s).2 = 0%nat)
   \/
   ((AddParent args s).1.1 = Return JSUndefined /\
    (AddParent args s).1.2.(this) = parent_added (this s) /\
    count is_append (AddParent args s).2 = 1%nat)).
Proof.
  run; split; try reflexivity; (left; by repeat split) || (right; by repeat split).
Qed.

(** C9. The append is not checked.  Whenever [AddParent] gets as far as
    [git_commit_add_parent], whatever that call gives back and whatever it
    does to the repository, [AddParent] returns undefined, the counter of the
    wrapper is the old one incremented as a C++ int, and the [parentCount] the
    wrapper shows is that counter. *)
Theorem AddParent_counts_unconditionally args s :
  (1 <= count is_append (AddParent args s).2)%nat ->
  (AddParent args s).1.1 = Return JSUndefined /\
  parentCount_ (AddParent args s).1.2.(this) = int32 (parentCount_ (this s) + 1) /\
  Get PARENTCOUNT_PROPERTY (handle_ (AddParent args s).1.2.(this)) =
    JSInt32 (int32 (parentCount_ (this s) + 1)).
Proof.
  intros Happ.
  destruct (AddParent_cases args s) as [_ [(_ & _ & H0) | (Hr & Hthis & _)]].
  - rewrite H0 in Happ. lia.
  - rewrite Hr, Hthis. repeat split. apply Get_ForceSet.
Qed.

(** A wrapper shows the parent count it holds from [processInitData] on:
    the script object of a wrapper just allocated has no [parentCount] yet. *)
Lemma processInitData_shows_parentCount (data : option commit_data) s :
  handle_ (this s) !! PARENTCOUNT_PROPERTY = None ->
  shows_parentCount (processInitData data s).1.2.(this).
Proof.
  intros Hfresh. unfold shows_parentCount.
  destruct data as [d |]; run;
    (apply Get_Set_fresh;
     rewrite !lookup_Set_ne by (unfold PARENTCOUNT_PROPERTY; discriminate);
     exact Hfresh).
Qed.

(** Every operation keeps it so. *)
Lemma shows_parentCount_kept tree0 args (req : get_parent_request) s :
  shows_parentCount (this s) ->
  shows_parentCount (GetTree args s).1.2.(this) /\
  shows_parentCount (SetTree tree0 args s).1.2.(this) /\
  shows_parentCount (GetParent args s).1.2.(this) /\
  shows_parentCount (EIO_GetParent req s).1.2.(this) /\
  shows_parentCount (EIO_AfterGetParent req s).1.2.(this) /\
  shows_parentCount (AddParent args s).1.2.(this) /\
  shows_parentCount (Save args s).1.2.(this).
Proof.
  intros Hshow. unfold shows_parentCount in *.
  repeat split; run; try reflexivity; try assumption;
    try apply Get_ForceSet;
    try (rewrite Get_ForceSet_ne
           by (unfold ID_PROPERTY, PARENTCOUNT_PROPERTY; discriminate);
         assumption).
Qed.

Lemma int32_small z : - 2 ^ 31 <= z <= INT_MAX -> int32 z = z.
Proof.
  unfold int32, INT_MAX. intros Hz.
  rewrite Z.mod_small; lia.
Qed.

Lemma returned_nonneg {A} (rs : list (completion A)) : 0 <= returned rs.
Proof. induction rs as [| [] rs IH]; simpl; lia. Qed.

(** C3. Locally authoritative counter.  Take a wrapper that shows the
    parent count it holds, and any sequence of [AddParent] calls on it, [N] of
    which return (the others throw).  As long as the count stays a C++ int,
    the counter of the wrapper and the [parentCount] it shows are the count
    before the calls plus [N], and no call of the sequence has read the parent
    count from the backend. *)
Theorem AddParent_counter (argss : list (list jsval)) s :
  shows_parentCount (this s) ->
  0 <= parentCount_ (this s) ->
  parentCount_ (this s) + returned (calls AddParent argss s).1.1 <= INT_MAX ->
  parentCount_ (calls AddParent argss s).1.2.(this) =
    parentCount_ (this s) + returned (calls AddParent argss s).1.1 /\
  Get PARENTCOUNT_PROPERTY (handle_ (calls AddParent argss s).1.2.(this)) =
    JSInt32 (parentCount_ (this s) + returned (calls AddParent argss s).1.1) /\
  count is_parentcount_read (calls AddParent argss s).2 = 0%nat.
Proof.
  revert s. induction argss as [| args rest IH]; intros s Hshow Hpos Hmax.
  - simpl in *. rewrite Z.add_0_r. repeat split. exact Hshow.
  - simpl in *.
    destruct (AddParent_cases args s) as [Hread Hcases].
    destruct (AddParent args s) as [[r s1] t1] eqn:Hadd. simpl in *.
    specialize (IH s1).
    destruct (calls AddParent rest s1) as [[rs s2] t2] eqn:Hrest. simpl in *.
    pose proof (returned_nonneg rs) as Hrs.
    assert (Hcount : forall t t' : list event,
               count is_parentcount_read (t ++ t') =
               (count is_parentcount_read t + count is_parentcount_read t')%nat).
    { intros t t'. induction t as [| e t IHt]; simpl; [reflexivity |].
      rewrite IHt. lia. }
    destruct Hcases as [(Hr & Hthis & _) | (Hr & Hthis & _)].
    + destruct r; [discriminate |]. simpl in *.
      rewrite Hthis in IH.
      destruct (IH Hshow Hpos Hmax) as (H1 & H2 & H3).
      rewrite Hcount, Hread, H3. by repeat split.
    + subst r. simpl in *.
      assert (Hone : int32 (parentCount_ (this s) + 1) = parentCount_ (this s) + 1)
        by (apply int32_small; unfold INT_MAX in *; lia).
      rewrite Hthis in IH. unfold parent_added in IH. simpl in IH.
      rewrite Hone in IH. clear Hone.
      destruct IH as (H1 & H2 & H3).
      * unfold shows_parentCount. simpl. apply Get_ForceSet.
      * lia.
      * lia.
      * rewrite Hcount, Hread, H3, H1, H2.
        split; [lia | split; [f_equal; lia | reflexivity]].
Qed.

(** ** getParent *)

Lemma GetParent_out_of_bounds args s idx :
  (1 <= length args)%nat ->
  arg 0 args = JSInt32 idx ->
  parentCount_ (this s) <= idx ->
  GetParent args s = (Throw out_of_bounds, s, []).
Proof.
  intros Hlen Harg Hidx. unfold_binding.
  destruct (length args <? 1)%nat eqn:Hl; [apply Nat.ltb_lt in Hl; lia |].
  simpl. rewrite Harg. simpl.
  destruct (idx >=? parentCount_ (this s)) eqn:Hge; [reflexivity | lia].
Qed.

Lemma GetParent_inline args s idx :
  length args = 1%nat ->
  arg 0 args = JSInt32 idx ->
  idx < parentCount_ (this s) ->
  GetParent args s =
    let r := git_exec (git_commit_parent (commit_ (this s)) idx) (repo s) in
    (if r.1 =? NULL then Throw (Error "Error getting parent.")
     else Return (JSInstance CommitTemplate r.1),
     {| this := this s; repo := r.2 |},
     lockRepository :: Git (git_commit_parent (commit_ (this s)) idx)
       :: unlockRepository
       :: (if r.1 =? NULL then [] else [syncRequestObject CommitTemplate r.1])).
Proof.
  intros Hlen Harg Hidx. unfold_binding. rewrite Hlen, Harg. simpl.
  destruct (idx >=? parentCount_ (this s)) eqn:Hge; [lia |].
  simpl. destruct (git_exec _ _) as [p b]. simpl.
  destruct (p =? NULL); reflexivity.
Qed.

Lemma GetParent_deferred args s idx f :
  (1 < length args)%nat ->
  arg 0 args = JSInt32 idx ->
  idx < parentCount_ (this s) ->
  arg (length args - 1) args = JSFunction f ->
  GetParent args s =
    (Return JSUndefined,
     {| this := set_refs (refs_ (this s) + 1) (this s); repo := repo s |},
     [Ref; eio_custom (request_of f idx); ev_ref]).
Proof.
  intros Hlen Harg Hidx Hfun. unfold_binding.
  destruct (length args <? 1)%nat eqn:Hl; [apply Nat.ltb_lt in Hl; lia |].
  simpl. rewrite Harg. simpl.
  destruct (idx >=? parentCount_ (this s)) eqn:Hge; [lia |].
  destruct (1 <? length args)%nat eqn:Hl1; [| apply Nat.ltb_ge in Hl1; lia].
  rewrite Hfun. reflexivity.
Qed.

(** The worker step: one parent resolution inside one locked section. *)
Lemma EIO_GetParent_run (req : get_parent_request) s :
  EIO_GetParent req s =
    let r := git_exec (git_commit_parent (commit_ (this s)) (index req))
               (repo s) in
    (Return ({| callback := callback req; index := index req;
                parent := r.1 |}, 0),
     {| this := this s; repo := r.2 |},
     [lockRepository; Git (git_commit_parent (commit_ (this s)) (index req));
      unlockRepository]).
Proof. unfold_binding. simpl. destruct (git_exec _ _); reflexivity. Qed.

(** The completion: the references are given back first, then the callback
    is called with the error, or handed to the factory with the parent. *)
Lemma EIO_AfterGetParent_run (req : get_parent_request) s :
  EIO_AfterGetParent req s =
    (Return 0,
     {| this := set_refs (refs_ (this s) - 1) (this s); repo := repo s |},
     ev_unref :: Unref
       :: (if parent req =? NULL then
             [Call (callback req)
                [JSException (Error "Couldn't get parent commit."); JSNull];
              Dispose (callback req)]
           else [asyncRequestObject CommitTemplate (parent req) (callback req)])
       ++ [delete_request]).
Proof. unfold_binding. simpl. destruct (parent req =? NULL); reflexivity. Qed.

Lemma eio_run_trace (req : get_parent_request) s :
  eio_run req s =
    let r := git_exec (git_commit_parent (commit_ (this s)) (index req))
               (repo s) in
    (Return 0,
     {| this := set_refs (refs_ (this s) - 1) (this s); repo := r.2 |},
     lockRepository :: Git (git_commit_parent (commit_ (this s)) (index req))
       :: unlockRepository :: ev_unref :: Unref
       :: (if r.1 =? NULL then
             [Call (callback req)
                [JSException (Error "Couldn't get parent commit."); JSNull];
              Dispose (callback req)]
           else [asyncRequestObject CommitTemplate r.1 (callback req)])
       ++ [delete_request]).
Proof.
  unfold eio_run. unfold mbind, M_bind.
  rewrite EIO_GetParent_run. simpl.
  rewrite EIO_AfterGetParent_run. simpl. reflexivity.
Qed.

(** A call that passes the arguments and the bound check does not end with
    the out-of-bounds error. *)
Lemma GetParent_in_bounds args s idx :
  (1 <= length args)%nat ->
  arg 0 args = JSInt32 idx ->
  idx < parentCount_ (this s) ->
  (GetParent args s).1.1 <> Throw out_of_bounds.
Proof.
  intros Hlen Harg Hidx. unfold_binding.
  destruct (length args <? 1)%nat eqn:Hl; [apply Nat.ltb_lt in Hl; lia |].
  simpl. rewrite Harg. simpl.
  destruct (idx >=? parentCount_ (this s)) eqn:Hge; [lia |].
  destruct (1 <? length args)%nat.
  - destruct (arg (length args - 1) args); simpl; discriminate.
  - simpl. destruct (git_exec _ _) as [p b]. simpl.
    destruct (p =? NULL); simpl; discriminate.
Qed.

(** C10. The bound check has no lower bound.  For a call whose first
    argument is the integer [idx]: [GetParent] ends with the out-of-bounds
    error, before any call, exactly when [idx] is at or above the parent count
    of the wrapper.  So when the count is not negative, a negative [idx]
    passes the check and goes to the backend as it is: the inline call
    resolves the parent [idx] under the lock, and the deferred call submits a
    request with that index, which the worker step resolves. *)
Theorem GetParent_negative_index_reaches_backend args s idx :
  (1 <= length args)%nat ->
  arg 0 args = JSInt32 idx ->
  (GetParent args s = (Throw out_of_bounds, s, []) <->
   parentCount_ (this s) <= idx)
  /\
  (idx < 0 -> 0 <= parentCount_ (this s) ->
   (length args = 1%nat ->
    exists t,
      (GetParent args s).2 =
        lockRepository :: Git (git_commit_parent (commit_ (this s)) idx)
          :: unlockRepository :: t)
   /\
   (forall f,
      (1 < length args)%nat ->
      arg (length args - 1) args = JSFunction f ->
      submitted (GetParent args s).2 = [request_of f idx] /\
      forall s1 : St B,
        (EIO_GetParent (request_of f idx) s1).2 =
          [lockRepository; Git (git_commit_parent (commit_ (this s1)) idx);
           unlockRepository])).
Proof.
  intros Hlen Harg. split.
  - split.
    + intros Hthrow.
      destruct (Z.le_gt_cases (parentCount_ (this s)) idx) as [Hle | Hlt];
        [exact Hle |].
      pose proof (GetParent_in_bounds args s idx Hlen Harg Hlt) as Hne.
      rewrite Hthrow in Hne. simpl in Hne. congruence.
    + apply GetParent_out_of_bounds; assumption.
  - intros Hneg Hcount.
    assert (Hlt : idx < parentCount_ (this s)) by lia.
    split.
    + intros Hone. rewrite (GetParent_inline args s idx Hone Harg Hlt).
      simpl. eexists. reflexivity.
    + intros f Hmore Hfun.
      rewrite (GetParent_deferred args s idx f Hmore Harg Hlt Hfun).
      split; [reflexivity |].
      intros s1. rewrite EIO_GetParent_run. reflexivity.
Qed.

(** C6. How a missing parent is reported.  For a call whose first argument
    is the integer [idx]:
    - when [idx] is at or above the parent count of the wrapper, [GetParent]
      throws the out-of-bounds error on the spot, with or without a callback:
      nothing is called, nothing is submitted;
    - when [idx] is below the count and there is no callback, the parent is
      resolved once under the lock, and when the backend has none [GetParent]
      throws;
    - when [idx] is below the count and the last argument is a function,
      [GetParent] returns undefined after submitting one request, without
      resolving anything itself; the worker step of that request never
      throws, and when the backend has no such parent the run of the request
      resolves once and calls the callback with an error and null. *)
Theorem GetParent_missing_parent_reported args s idx :
  (1 <= length args)%nat ->
  arg 0 args = JSInt32 idx ->
  (parentCount_ (this s) <= idx ->
   GetParent args s = (Throw out_of_bounds, s, []))
  /\
  (idx < parentCount_ (this s) ->
   length args = 1%nat ->
   (git_exec (git_commit_parent (commit_ (this s)) idx) (repo s)).1 = NULL ->
   (GetParent args s).1.1 = Throw (Error "Error getting parent.") /\
   (GetParent args s).2 =
     [lockRepository; Git (git_commit_parent (commit_ (this s)) idx);
      unlockRepository])
  /\
  (idx < parentCount_ (this s) ->
   forall f,
     (1 < length args)%nat ->
     arg (length args - 1) args = JSFunction f ->
     (GetParent args s).1.1 = Return JSUndefined /\
     submitted (GetParent args s).2 = [request_of f idx] /\
     count is_parent_resolution (GetParent args s).2 = 0%nat /\
     forall s1 : St B,
       is_throw (EIO_GetParent (request_of f idx) s1).1.1 = false /\
       ((git_exec (git_commit_parent (commit_ (this s1)) idx) (repo s1)).1
          = NULL ->
        (eio_run (request_of f idx) s1).1.1 = Return 0 /\
        (eio_run (request_of f idx) s1).2 =
          [lockRepository; Git (git_commit_parent (commit_ (this s1)) idx);
           unlockRepository; ev_unref; Unref;
           Call (JSFunction f)
             [JSException (Error "Couldn't get parent commit."); JSNull];
           Dispose (JSFunction f); delete_request])).
Proof.
  intros Hlen Harg. split; [| split].
  - apply GetParent_out_of_bounds; assumption.
  - intros Hlt Hone Hnull.
    rewrite (GetParent_inline args s idx Hone Harg Hlt). simpl.
    rewrite Hnull. split; reflexivity.
  - intros Hlt f Hmore Hfun.
    rewrite (GetParent_deferred args s idx f Hmore Harg Hlt Hfun). simpl.
    split; [reflexivity | split; [reflexivity | split; [reflexivity |]]].
    intros s1. split.
    + rewrite EIO_GetParent_run. reflexivity.
    + intros Hnull. rewrite eio_run_trace. simpl. rewrite Hnull.
      split; reflexivity.
Qed.

(** C7. The reference held for a deferred request.  A deferred [GetParent]
    that submits its request takes one reference on the wrapper, before it
    hands the request to the event loop.  The worker step takes and gives
    back none.  The completion gives back one reference, as its second
    action: before the callback is called with the error, or handed to the
    factory with the parent, which happens once, later in the completion.
    So from the submission to the completion the count is above what it was,
    and after the completion it is what it was. *)
Theorem GetParent_deferred_reference args s idx f :
  (1 < length args)%nat ->
  arg 0 args = JSInt32 idx ->
  idx < parentCount_ (this s) ->
  arg (length args - 1) args = JSFunction f ->
  ((GetParent args s).2 = [Ref; eio_custom (request_of f idx); ev_ref] /\
   refs_ (GetParent args s).1.2.(this) = refs_ (this s) + 1)
  /\
  (forall s1 : St B,
     refs_ (EIO_GetParent (request_of f idx) s1).1.2.(this) = refs_ (this s1) /\
     count is_ref (EIO_GetParent (request_of f idx) s1).2 = 0%nat /\
     count is_unref (EIO_GetParent (request_of f idx) s1).2 = 0%nat)
  /\
  (forall (req : get_parent_request) (s2 : St B),
     refs_ (EIO_AfterGetParent req s2).1.2.(this) = refs_ (this s2) - 1 /\
     exists t,
       (EIO_AfterGetParent req s2).2 = ev_unref :: Unref :: t /\
       count is_unref t = 0%nat /\ count is_ref t = 0%nat /\
       count is_callback t = 1%nat)
  /\
  (forall s1 : St B,
     refs_ (eio_run (request_of f idx) s1).1.2.(this) = refs_ (this s1) - 1).
Proof.
  intros Hmore Harg Hlt Hfun. split; [| split; [| split]].
  - rewrite (GetParent_deferred args s idx f Hmore Harg Hlt Hfun).
    split; reflexivity.
  - intros s1. rewrite EIO_GetParent_run. repeat split.
  - intros req s2. rewrite EIO_AfterGetParent_run. split; [reflexivity |].
    simpl. eexists. split; [reflexivity |].
    destruct (parent req =? NULL); repeat split.
  - intros s1. rewrite eio_run_trace. reflexivity.
Qed.

(** ** The lock *)

(** [GetParent] and the worker step keep the lock discipline. *)
Lemma GetParent_lock_disciplined args s :
  lock_disciplined false (GetParent args s).2 = true.
Proof. run; reflexivity. Qed.

Lemma EIO_GetParent_lock_disciplined (req : get_parent_request) s :
  lock_disciplined false (EIO_GetParent req s).2 = true.
Proof. rewrite EIO_GetParent_run. reflexivity. Qed.

(** The other operations take the lock nowhere. *)
Lemma no_lock_taken tree0 args s :
  count is_lock_event (GetTree args s).2 = 0%nat /\
  count is_lock_event (SetTree tree0 args s).2 = 0%nat /\
  count is_lock_event (AddParent args s).2 = 0%nat /\
  count is_lock_event (Save args s).2 = 0%nat.
Proof. repeat split; run; reflexivity. Qed.

(** ** load *)

(** C8. The load step.  [loadInitData] takes the repository lock, asks
    libgit2 for the id, the message, the author, the committer and the parent
    count of the commit, in that order and each on the repository the call
    before left, copies each answer (the id formatted by [git_oid_fmt], the
    signatures duplicated by [git_signature_dup], the count as a C++ int),
    releases the lock and returns exactly these copies; it leaves the wrapper
    as it was.  [processInitData] then sets the five properties of the script
    object and the parent counter from the copies and frees the two copied
    signatures.  So the trace of the load is one locked section that holds
    every call through the repository and no property write, followed by the
    property writes; and a wrapper whose script object had no property yet
    shows, after the load, what libgit2 answered inside the locked
    section. *)
Theorem load_copies_then_publishes s :
  let c := commit_ (this s) in
  let oid := answer (git_commit_id c) (repo s) in
  let b1 := after (git_commit_id c) (repo s) in
  let data_id := answer (git_oid_fmt oid) b1 in
  let b2 := after (git_oid_fmt oid) b1 in
  let data_message := answer (git_commit_message c) b2 in
  let b3 := after (git_commit_message c) b2 in
  let a := answer (git_commit_author c) b3 in
  let b4 := after (git_commit_author c) b3 in
  let data_author := answer (git_signature_dup a) b4 in
  let b5 := after (git_signature_dup a) b4 in
  let cm := answer (git_commit_committer c) b5 in
  let b6 := after (git_commit_committer c) b5 in
  let data_committer := answer (git_signature_dup cm) b6 in
  let b7 := after (git_signature_dup cm) b6 in
  let n := answer (git_commit_parentcount c) b7 in
  let b8 := after (git_commit_parentcount c) b7 in
  let data :=
    {| id := data_id; message := data_message; author := data_author;
       committer := data_committer; parentCount := int32 n |} in
  let locked :=
    [Git (git_commit_id c); Git (git_oid_fmt oid);
     Git (git_commit_message c);
     Git (git_commit_author c); Git (git_signature_dup a);
     Git (git_commit_committer c); Git (git_signature_dup cm);
     Git (git_commit_parentcount c)] in
  let published :=
    [SetProperty ID_PROPERTY (JSString data_id);
     SetProperty MESSAGE_PROPERTY (JSString data_message);
     SetProperty AUTHOR_PROPERTY (person_of_signature data_author);
     SetProperty COMMITTER_PROPERTY (person_of_signature data_committer);
     SetProperty PARENTCOUNT_PROPERTY (JSInt32 (int32 n));
     Git (git_signature_free data_author);
     Git (git_signature_free data_committer)] in
  let w :=
    {| handle_ :=
         Set_ PARENTCOUNT_PROPERTY (JSInt32 (int32 n))
           (Z.lor ReadOnly DontDelete)
           (Set_ COMMITTER_PROPERTY (person_of_signature data_committer) None_
              (Set_ AUTHOR_PROPERTY (person_of_signature data_author) None_
                 (Set_ MESSAGE_PROPERTY (JSString data_message) None_
                    (Set_ ID_PROPERTY (JSString data_id)
                       (Z.lor ReadOnly DontDelete) (handle_ (this s))))));
       commit_ := c;
       parentCount_ := int32 n;
       refs_ := refs_ (this s) |} in
  loadInitData s =
    (Return data, {| this := this s; repo := b8 |},
     lockRepository :: locked ++ [unlockRepository]) /\
  load s =
    (Return tt,
     {| this := w;
        repo := after (git_signature_free data_committer)
                  (after (git_signature_free data_author) b8) |},
     lockRepository :: locked ++ unlockRepository :: published) /\
  (handle_ (this s) = ∅ ->
   Get ID_PROPERTY (handle_ w) = JSString data_id /\
   Get MESSAGE_PROPERTY (handle_ w) = JSString data_message /\
   Get AUTHOR_PROPERTY (handle_ w) = person_of_signature data_author /\
   Get COMMITTER_PROPERTY (handle_ w) = person_of_signature data_committer /\
   Get PARENTCOUNT_PROPERTY (handle_ w) = JSInt32 (parentCount_ w)) /\
  lock_disciplined false (load s).2 = true /\
  while_locked false (load s).2 = locked /\
  count is_backend_call (load s).2 = count is_backend_call locked /\
  count is_publish locked = 0%nat /\
  count is_lock_event (load s).2 = 2%nat.
Proof.
  cbv zeta. unfold answer, after.
  assert (Hload :
    loadInitData s =
      (let c := commit_ (this s) in
       let r1 := git_exec (git_commit_id c) (repo s) in
       let r2 := git_exec (git_oid_fmt r1.1) r1.2 in
       let r3 := git_exec (git_commit_message c) r2.2 in
       let r4 := git_exec (git_commit_author c) r3.2 in
       let r5 := git_exec (git_signature_dup r4.1) r4.2 in
       let r6 := git_exec (git_commit_committer c) r5.2 in
       let r7 := git_exec (git_signature_dup r6.1) r6.2 in
       let r8 := git_exec (git_commit_parentcount c) r7.2 in
       (Return {| id := r2.1; message := r3.1; author := r5.1;
                  committer := r7.1; parentCount := int32 r8.1 |},
        {| this := this s; repo := r8.2 |},
        [lockRepository; Git (git_commit_id c); Git (git_oid_fmt r1.1);
         Git (git_commit_message c);
         Git (git_commit_author c); Git (git_signature_dup r4.1);
         Git (git_commit_committer c); Git (git_signature_dup r6.1);
         Git (git_commit_parentcount c); unlockRepository]))).
  { run. reflexivity. }
  assert (Hpublish : forall (d : commit_data) (s1 : St B),
    processInitData (Some d) s1 =
      (Return tt,
       {| this :=
            {| handle_ :=
                 Set_ PARENTCOUNT_PROPERTY (JSInt32 (parentCount d))
                   (Z.lor ReadOnly DontDelete)
                   (Set_ COMMITTER_PROPERTY (person_of_signature (committer d))
                      None_
                      (Set_ AUTHOR_PROPERTY (person_of_signature (author d))
                         None_
                         (Set_ MESSAGE_PROPERTY (JSString (message d)) None_
                            (Set_ ID_PROPERTY (JSString (id d))
                               (Z.lor ReadOnly DontDelete)
                               (handle_ (this s1))))));
               commit_ := commit_ (this s1);
               parentCount_ := parentCount d;
               refs_ := refs_ (this s1) |};
          repo := (git_exec (git_signature_free (committer d))
                     (git_exec (git_signature_free (author d)) (repo s1)).2).2 |},
       [SetProperty ID_PROPERTY (JSString (id d));
        SetProperty MESSAGE_PROPERTY (JSString (message d));
        SetProperty AUTHOR_PROPERTY (person_of_signature (author d));
        SetProperty COMMITTER_PROPERTY (person_of_signature (committer d));
        SetProperty PARENTCOUNT_PROPERTY (JSInt32 (parentCount d));
        Git (git_signature_free (author d));
        Git (git_signature_free (committer d))])).
  { intros d s1. run.
    repeat match goal with u : unit |- _ => destruct u end. reflexivity. }
  assert (Hboth : load s =
    match loadInitData s with
    | (Return d, s1, t1) =>
        match processInitData (Some d) s1 with
        | (r, s2, t2) => (r, s2, t1 ++ t2)
        end
    | (Throw e, s1, t1) => (Throw e, s1, t1)
    end) by reflexivity.
  rewrite Hboth, Hload. cbv beta iota zeta. rewrite Hpublish. simpl.
  split; [reflexivity |]. split; [reflexivity |].
  split; [| by repeat split].
  intros Hempty. rewrite Hempty.
  repeat split.
Qed.

End Properties.

(** * More properties of the binding *)

Section Coverage.

Context {B : Type} `{!LibGit2 B} `{!PersonConv}.

Implicit Types (s : St B) (args : list jsval).

Lemma git_exec_answer_after {R} (c : git_call R) (b : B) :
  git_exec c b = (answer c b, after c b).
Proof. unfold answer, after. by destruct (git_exec c b). Qed.

(** ** setTree, getTree *)

(** [SetTree] on an id, step by step. *)
Lemma SetTree_by_id tree0 args s id :
  arg 0 args = JSString id ->
  SetTree tree0 args s =
    let r := answer (git_oid_mkstr id) (repo s) in
    let b1 := after (git_oid_mkstr id) (repo s) in
    let l := answer (git_tree_lookup r.2) b1 in
    let b2 := after (git_tree_lookup r.2) b1 in
    let c := commit_ (this s) in
    if negb (r.1 =? GIT_SUCCESS) then
      (Throw (GitError "Id is invalid" r.1), {| this := this s; repo := b1 |},
       [Git (git_oid_mkstr id)])
    else if negb (l.1 =? GIT_SUCCESS) then
      (Throw (GitError "Error locating tree" l.1),
       {| this := this s; repo := b2 |},
       [Git (git_oid_mkstr id); Git (git_tree_lookup r.2)])
    else
      (Return JSUndefined,
       {| this := this s; repo := after (git_commit_set_tree c l.2) b2 |},
       [Git (git_oid_mkstr id); Git (git_tree_lookup r.2);
        Git (git_commit_set_tree c l.2)]).
Proof.
  intros Harg. unfold_binding. rewrite Harg. simpl.
  rewrite (git_exec_answer_after (git_oid_mkstr id)). simpl.
  destruct (negb (_ =? GIT_SUCCESS)); [reflexivity |]. simpl.
  rewrite (git_exec_answer_after (git_tree_lookup _)). simpl.
  destruct (negb (_ =? GIT_SUCCESS)); [reflexivity |]. simpl.
  rewrite (git_exec_answer_after (git_commit_set_tree _ _)). reflexivity.
Qed.

(** X1. [SetTree] on an id string: when the id does not parse, it throws
    "Id is invalid" with the result code of [git_oid_mkstr], having looked
    nothing up; when the id parses and the lookup fails, it throws "Error
    locating tree" with the result code of [git_tree_lookup].  In both cases
    [git_commit_set_tree] is not called and the wrapper is as it was. *)
Theorem SetTree_by_id_failures tree0 args s id :
  arg 0 args = JSString id ->
  let r := answer (git_oid_mkstr id) (repo s) in
  let b1 := after (git_oid_mkstr id) (repo s) in
  let l := answer (git_tree_lookup r.2) b1 in
  (r.1 <> GIT_SUCCESS ->
   SetTree tree0 args s =
     (Throw (GitError "Id is invalid" r.1), {| this := this s; repo := b1 |},
      [Git (git_oid_mkstr id)]))
  /\
  (r.1 = GIT_SUCCESS -> l.1 <> GIT_SUCCESS ->
   (SetTree tree0 args s).1.1 = Throw (GitError "Error locating tree" l.1) /\
   (SetTree tree0 args s).2 =
     [Git (git_oid_mkstr id); Git (git_tree_lookup r.2)] /\
   (SetTree tree0 args s).1.2.(this) = this s).
Proof.
  intros Harg r b1 l. rewrite (SetTree_by_id tree0 args s id Harg).
  fold r b1 l. simpl. split.
  - intros Hr. apply Z.eqb_neq in Hr. rewrite Hr. reflexivity.
  - intros Hr Hl. apply Z.eqb_eq in Hr. apply Z.eqb_neq in Hl.
    rewrite Hr. simpl. fold r b1 l. rewrite Hl. simpl. by repeat split.
Qed.

(** X2. [SetTree] sets the tree it was referred to.  Given an id that
    parses and is found, it calls [git_commit_set_tree] with the tree the
    lookup gave; given a Tree wrapper, it calls it with the tree of the
    wrapper and looks nothing up.  Either way it returns undefined, whatever
    [git_commit_set_tree] gives back, and leaves the wrapper as it was. *)
Theorem SetTree_sets_resolved_tree tree0 args s :
  (forall id,
     arg 0 args = JSString id ->
     let r := answer (git_oid_mkstr id) (repo s) in
     let b1 := after (git_oid_mkstr id) (repo s) in
     let l := answer (git_tree_lookup r.2) b1 in
     r.1 = GIT_SUCCESS -> l.1 = GIT_SUCCESS ->
     (SetTree tree0 args s).1.1 = Return JSUndefined /\
     (SetTree tree0 args s).2 =
       [Git (git_oid_mkstr id); Git (git_tree_lookup r.2);
        Git (git_commit_set_tree (commit_ (this s)) l.2)] /\
     (SetTree tree0 args s).1.2.(this) = this s)
  /\
  (forall p,
     arg 0 args = JSInstance TreeTemplate p ->
     SetTree tree0 args s =
       (Return JSUndefined,
        {| this := this s;
           repo := after (git_commit_set_tree (commit_ (this s)) p) (repo s) |},
        [Git (git_commit_set_tree (commit_ (this s)) p)])).
Proof.
  split.
  - intros id Harg r b1 l Hr Hl.
    rewrite (SetTree_by_id tree0 args s id Harg). fold r b1 l. simpl.
    apply Z.eqb_eq in Hr, Hl. rewrite Hr. simpl. fold r b1 l. rewrite Hl.
    simpl. by repeat split.
  - intros p Harg. unfold_binding. rewrite Harg. simpl.
    rewrite (git_exec_answer_after (git_commit_set_tree _ _)). reflexivity.
Qed.

(** X3. [SetTree] refuses nothing.  For every argument list whose first
    argument is neither a string nor a Tree wrapper (a Commit wrapper, null,
    no argument at all), it throws nothing: it calls [git_commit_set_tree]
    with the local [tree] that no branch has assigned, and returns
    undefined. *)
Theorem SetTree_unassigned_tree tree0 args s :
  entity_ref TreeTemplate (arg 0 args) = false ->
  (SetTree tree0 args s).1.1 = Return JSUndefined /\
  (SetTree tree0 args s).2 =
    [Git (git_commit_set_tree (commit_ (this s)) tree0)] /\
  (SetTree tree0 args s).1.2.(this) = this s.
Proof.
  intros Href. rewrite (SetTree_neither tree0 args s Href). by repeat split.
Qed.

(** X4. [GetTree] asks the repository for the tree of the commit, once and
    whatever its arguments.  When the commit has none it returns null and
    asks the object factory for nothing; otherwise it returns the Tree wrapper
    the factory gives for that tree.  It leaves the wrapper as it was. *)
Theorem GetTree_null_or_wrapper args s :
  let tree := answer (git_commit_tree (commit_ (this s))) (repo s) in
  GetTree args s =
    (if tree =? NULL then Return JSNull
     else Return (JSInstance TreeTemplate tree),
     {| this := this s;
        repo := after (git_commit_tree (commit_ (this s))) (repo s) |},
     Git (git_commit_tree (commit_ (this s)))
       :: (if tree =? NULL then [] else [syncRequestObject TreeTemplate tree]))
  /\ GetTree args s = GetTree [] s.
Proof.
  split; [| reflexivity].
  unfold_binding. simpl.
  rewrite (git_exec_answer_after (git_commit_tree _)). simpl.
  destruct (_ =? NULL); reflexivity.
Qed.

(** ** addParent *)

(** [AddParent] on an id, step by step. *)
Lemma AddParent_by_id args s id :
  arg 0 args = JSString id ->
  AddParent args s =
    let r := answer (git_oid_mkstr id) (repo s) in
    let b1 := after (git_oid_mkstr id) (repo s) in
    let l := answer (git_commit_lookup r.2) b1 in
    let b2 := after (git_commit_lookup r.2) b1 in
    let c := commit_ (this s) in
    if negb (r.1 =? GIT_SUCCESS) then
      (Throw (GitError "Id is invalid" r.1), {| this := this s; repo := b1 |},
       [Git (git_oid_mkstr id)])
    else if negb (l.1 =? GIT_SUCCESS) then
      (Throw (GitError "Error locating commit" l.1),
       {| this := this s; repo := b2 |},
       [Git (git_oid_mkstr id); Git (git_commit_lookup r.2)])
    else
      (Return JSUndefined,
       {| this := parent_added (this s);
          repo := after (git_commit_add_parent c l.2) b2 |},
       [Git (git_oid_mkstr id); Git (git_commit_lookup r.2);
        Git (git_commit_add_parent c l.2);
        SetProperty "parentCount"
          (JSInt32 (int32 (parentCount_ (this s) + 1)))]).
Proof.
  intros Harg. unfold_binding.
  assert (Hlen : (length args <? 1)%nat = false).
  { destruct args; [discriminate | reflexivity]. }
  rewrite Hlen, Harg. simpl.
  rewrite (git_exec_answer_after (git_oid_mkstr id)). simpl.
  destruct (negb (_ =? GIT_SUCCESS)); [reflexivity |]. simpl.
  rewrite (git_exec_answer_after (git_commit_lookup _)). simpl.
  destruct (negb (_ =? GIT_SUCCESS)); [reflexivity |]. simpl.
  rewrite (git_exec_answer_after (git_commit_add_parent _ _)). reflexivity.
Qed.

(** X5. [AddParent] on an id string: when the id does not parse, it throws
    "Id is invalid" with the result code of [git_oid_mkstr], having looked
    nothing up; when the id parses and the lookup fails, it throws "Error
    locating commit" with the result code of [git_commit_lookup].  In both
    cases nothing is appended and the wrapper, its parent count included, is
    as it was. *)
Theorem AddParent_by_id_failures args s id :
  arg 0 args = JSString id ->
  let r := answer (git_oid_mkstr id) (repo s) in
  let b1 := after (git_oid_mkstr id) (repo s) in
  let l := answer (git_commit_lookup r.2) b1 in
  (r.1 <> GIT_SUCCESS ->
   AddParent args s =
     (Throw (GitError "Id is invalid" r.1), {| this := this s; repo := b1 |},
      [Git (git_oid_mkstr id)]))
  /\
  (r.1 = GIT_SUCCESS -> l.1 <> GIT_SUCCESS ->
   (AddParent args s).1.1 = Throw (GitError "Error locating commit" l.1) /\
   (AddParent args s).2 =
     [Git (git_oid_mkstr id); Git (git_commit_lookup r.2)] /\
   (AddParent args s).1.2.(this) = this s).
Proof.
  intros Harg r b1 l. rewrite (AddParent_by_id args s id Harg).
  fold r b1 l. simpl. split.
  - intros Hr. apply Z.eqb_neq in Hr. rewrite Hr. reflexivity.
  - intros Hr Hl. apply Z.eqb_eq in Hr. apply Z.eqb_neq in Hl.
    rewrite Hr. simpl. fold r b1 l. rewrite Hl. simpl. by repeat split.
Qed.

(** X6. [AddParent] refuses what is no reference to a commit.  Called with
    a first argument that is neither a string nor a Commit wrapper (a Tree
    wrapper, a number, null), it throws "Invalid argument." before any call:
    the trace is empty and the state is the one it started from. *)
Theorem AddParent_refuses_other_kinds args s :
  (1 <= length args)%nat ->
  entity_ref CommitTemplate (arg 0 args) = false ->
  AddParent args s = (Throw (Error "Invalid argument."), s, []) /\
  count is_backend_call (AddParent args s).2 = 0%nat.
Proof.
  intros Hlen Href. rewrite (AddParent_neither args s Hlen Href).
  split; reflexivity.
Qed.

(** X7. [AddParent] appends the commit it was referred to.  Given a Commit
    wrapper, it appends the commit of that wrapper without looking anything
    up, and it does so for every wrapper, the one it is called on included;
    given an id that parses and is found, it appends the commit the lookup
    gave.  In both cases the trace ends with that one append and the write of
    the new [parentCount]. *)
Theorem AddParent_appends_resolved_commit args s :
  (forall p,
     arg 0 args = JSInstance CommitTemplate p ->
     AddParent args s =
       (Return JSUndefined,
        {| this := parent_added (this s);
           repo := after (git_commit_add_parent (commit_ (this s)) p) (repo s) |},
        [Git (git_commit_add_parent (commit_ (this s)) p);
         SetProperty "parentCount"
           (JSInt32 (int32 (parentCount_ (this s) + 1)))]))
  /\
  (forall id,
     arg 0 args = JSString id ->
     let r := answer (git_oid_mkstr id) (repo s) in
     let b1 := after (git_oid_mkstr id) (repo s) in
     let l := answer (git_commit_lookup r.2) b1 in
     r.1 = GIT_SUCCESS -> l.1 = GIT_SUCCESS ->
     (AddParent args s).1.1 = Return JSUndefined /\
     (AddParent args s).2 =
       [Git (git_oid_mkstr id); Git (git_commit_lookup r.2);
        Git (git_commit_add_parent (commit_ (this s)) l.2);
        SetProperty "parentCount"
          (JSInt32 (int32 (parentCount_ (this s) + 1)))]).
Proof.
  split.
  - intros p Harg. unfold_binding.
    assert (Hlen : (length args <? 1)%nat = false).
    { destruct args; [discriminate | reflexivity]. }
    rewrite Hlen, Harg. simpl.
    rewrite (git_exec_answer_after (git_commit_add_parent _ _)). reflexivity.
  - intros id Harg r b1 l Hr Hl.
    rewrite (AddParent_by_id args s id Harg). fold r b1 l. simpl.
    apply Z.eqb_eq in Hr, Hl. rewrite Hr. simpl. fold r b1 l. rewrite Hl.
    simpl. by repeat split.
Qed.

(** ** getParent *)

(** X8. [GetParent] takes a reference exactly when it submits a request.
    For all arguments and every state, its trace has as many [Ref] and as
    many [ev_ref] as it has requests handed to [eio_custom], at most one; the
    reference count of the wrapper goes up by that number and nothing else of
    the wrapper changes.  In particular a call that throws has submitted
    nothing and leaves the wrapper as it was. *)
Theorem GetParent_reference_iff_submitted args s :
  let t := (GetParent args s).2 in
  let w := (GetParent args s).1.2.(this) in
  let n := length (submitted t) in
  (n <= 1)%nat /\
  count is_ref t = n /\ count is_ev_ref t = n /\ count is_unref t = 0%nat /\
  w = set_refs (refs_ (this s) + Z.of_nat n) (this s) /\
  (is_throw (GetParent args s).1.1 = true -> n = 0%nat /\ w = this s).
Proof.
  assert (Hw : forall c : Commit, c = set_refs (refs_ c + 0) c).
  { intros []. unfold set_refs. simpl. f_equal. lia. }
  run; repeat split; auto; try lia; try discriminate; try apply Hw.
Qed.

(** X9. The lock is given back on every path.  The traces of [GetParent],
    of the worker step and of [loadInitData] are lock-disciplined and end
    with the lock free, also when the parent is not found; and [GetParent]
    asks the object factory for the parent only after it has released the
    lock. *)
Theorem lock_released_on_every_path args (req : get_parent_request) s :
  (lock_disciplined false (GetParent args s).2 = true /\
   held_after false (GetParent args s).2 = false /\
   count is_factory_request (while_locked false (GetParent args s).2) = 0%nat)
  /\
  (lock_disciplined false (EIO_GetParent req s).2 = true /\
   held_after false (EIO_GetParent req s).2 = false)
  /\
  (lock_disciplined false (loadInitData s).2 = true /\
   held_after false (loadInitData s).2 = false).
Proof.
  split; [| split]; run; repeat split.
Qed.

(** X10. Both modes resolve the same parent.  For an index below the
    parent count that the repository resolves to a commit, the inline
    [GetParent] returns the wrapper the factory gives for that commit, and the
    run of a deferred request with the same index, on the same state, hands
    that same commit and the callback to the factory: the completion itself
    neither calls the callback nor disposes of it.  Both leave the repository
    in the same state. *)
Theorem GetParent_modes_agree s idx f :
  let c := commit_ (this s) in
  let p := answer (git_commit_parent c idx) (repo s) in
  idx < parentCount_ (this s) ->
  p <> NULL ->
  GetParent [JSInt32 idx] s =
    (Return (JSInstance CommitTemplate p),
     {| this := this s; repo := after (git_commit_parent c idx) (repo s) |},
     [lockRepository; Git (git_commit_parent c idx); unlockRepository;
      syncRequestObject CommitTemplate p])
  /\
  eio_run (request_of f idx) s =
    (Return 0,
     {| this := set_refs (refs_ (this s) - 1) (this s);
        repo := after (git_commit_parent c idx) (repo s) |},
     [lockRepository; Git (git_commit_parent c idx); unlockRepository;
      ev_unref; Unref; asyncRequestObject CommitTemplate p (JSFunction f);
      delete_request]).
Proof.
  intros c p Hlt Hp. apply Z.eqb_neq in Hp. split.
  - rewrite (GetParent_inline [JSInt32 idx] s idx eq_refl eq_refl Hlt).
    simpl. fold c. change (git_exec (git_commit_parent c idx) (repo s)).1 with p.
    rewrite Hp. reflexivity.
  - rewrite eio_run_trace. simpl. fold c.
    change (git_exec (git_commit_parent c idx) (repo s)).1 with p.
    rewrite Hp. reflexivity.
Qed.

(** X11. A deferred request gives back all it took.  When [GetParent]
    submits a request and the event loop runs it, the wrapper after the
    completion is the wrapper before the call; and over the call and the run
    together there is one [Ref] and one [Unref], one [ev_ref] and one
    [ev_unref], one parent resolution, made under the lock, one delivery of
    the callback and one deletion of the request. *)
Theorem deferred_request_round_trip args s idx f :
  (1 < length args)%nat ->
  arg 0 args = JSInt32 idx ->
  idx < parentCount_ (this s) ->
  arg (length args - 1) args = JSFunction f ->
  let s1 := (GetParent args s).1.2 in
  let t := (GetParent args s).2 ++ (eio_run (request_of f idx) s1).2 in
  submitted (GetParent args s).2 = [request_of f idx] /\
  (eio_run (request_of f idx) s1).1.2.(this) = this s /\
  count is_ref t = 1%nat /\ count is_unref t = 1%nat /\
  count is_ev_ref t = 1%nat /\ count is_ev_unref t = 1%nat /\
  count is_parent_resolution t = 1%nat /\ count is_callback t = 1%nat /\
  count is_delete t = 1%nat /\ lock_disciplined false t = true.
Proof.
  intros Hmore Harg Hlt Hfun s1 t. subst s1 t.
  rewrite (GetParent_deferred args s idx f Hmore Harg Hlt Hfun).
  rewrite eio_run_trace. simpl.
  split; [reflexivity |]. split.
  - destruct (this s) as [h c n r]. unfold set_refs. simpl. f_equal. lia.
  - destruct (_ =? NULL); repeat split.
Qed.

(** ** save *)

(** X12. [Save] checks the author and the committer before it calls
    anything.  With a message that is there and not empty: when the author
    does not convert to a signature, [Save] throws for the author; when the
    author converts and the committer does not, it throws for the committer.
    In both cases the trace is empty and the state is the one it started
    from. *)
Theorem Save_signatures_fail_fast args s :
  absent (Get MESSAGE_PROPERTY (handle_ (this s))) = false ->
  ToString (Get MESSAGE_PROPERTY (handle_ (this s))) <> "" ->
  (signature_of_value (Get AUTHOR_PROPERTY (handle_ (this s))) = None ->
   Save args s =
     (Throw (PropertyError "GET_SIGNATURE_PROPERTY" AUTHOR_PROPERTY), s, []))
  /\
  (is_Some (signature_of_value (Get AUTHOR_PROPERTY (handle_ (this s)))) ->
   signature_of_value (Get COMMITTER_PROPERTY (handle_ (this s))) = None ->
   Save args s =
     (Throw (PropertyError "GET_SIGNATURE_PROPERTY" COMMITTER_PROPERTY), s, [])).
Proof.
  intros Habs Hmsg.
  assert (Hlen : (String.length
                    (ToString (Get MESSAGE_PROPERTY (handle_ (this s)))) =? 0)%nat
                 = false).
  { destruct (ToString (Get MESSAGE_PROPERTY (handle_ (this s))));
      [congruence | reflexivity]. }
  split.
  - intros Ha. run; try discriminate; try congruence.
  - intros [a Ha] Hcm. run; try discriminate; try congruence.
Qed.

(** [Save] once the wrapper is validated, step by step. *)
Lemma Save_validated args s a cm :
  absent (Get MESSAGE_PROPERTY (handle_ (this s))) = false ->
  ToString (Get MESSAGE_PROPERTY (handle_ (this s))) <> "" ->
  signature_of_value (Get AUTHOR_PROPERTY (handle_ (this s))) = Some a ->
  signature_of_value (Get COMMITTER_PROPERTY (handle_ (this s))) = Some cm ->
  Save args s =
    let c := commit_ (this s) in
    let m := ToString (Get MESSAGE_PROPERTY (handle_ (this s))) in
    let b1 := after (git_commit_set_message c m) (repo s) in
    let b2 := after (git_commit_set_committer c cm) b1 in
    let b3 := after (git_commit_set_author c a) b2 in
    let b4 := after (git_object_write c) b3 in
    let oid := answer (git_commit_id c) b4 in
    let b5 := after (git_commit_id c) b4 in
    let oidStr := answer (git_oid_allocfmt oid) b5 in
    let tried :=
      [Git (git_commit_set_message c m); Git (git_commit_set_committer c cm);
       Git (git_commit_set_author c a); Git (git_object_write c)] in
    if negb (answer (git_object_write c) b3 =? GIT_SUCCESS) then
      (Throw (Error "Failed to save commit object."),
       {| this := this s; repo := b4 |}, tried)
    else
      (Return (JSBoolean true),
       {| this :=
            set_handle
              (ForceSet ID_PROPERTY (JSString oidStr)
                 (Z.lor ReadOnly DontDelete) (handle_ (this s)))
              (this s);
          repo := after (git_oid_allocfmt oid) b5 |},
       tried ++ [Git (git_commit_id c); Git (git_oid_allocfmt oid);
                 SetProperty ID_PROPERTY (JSString oidStr)]).
Proof.
  intros Habs Hmsg Ha Hcm.
  assert (Hlen : (String.length
                    (ToString (Get MESSAGE_PROPERTY (handle_ (this s)))) =? 0)%nat
                 = false).
  { destruct (ToString (Get MESSAGE_PROPERTY (handle_ (this s))));
      [congruence | reflexivity]. }
  unfold answer, after.
  run; try discriminate; try congruence.
  all: repeat match goal with
       | H : signature_of_value _ = Some _ |- _ => rewrite H in *
       end.
  all: try congruence.
  all: repeat match goal with
       | H : Some _ = Some _ |- _ => injection H as ->
       end.
  all: repeat match goal with
       | H : git_exec _ _ = _ |- _ => rewrite H in *; simpl in *
       end.
  all: try congruence.
  all: repeat match goal with u : unit |- _ => destruct u end.
  all: try reflexivity.
Qed.

(** X13. A failed write leaves the commit object edited.  When the wrapper
    is validated and [git_object_write] gives a result other than
    [GIT_SUCCESS], [Save] throws "Failed to save commit object." after exactly
    four calls: the message, the committer and the author have been set on the
    libgit2 commit, in that order, before the write was tried.  No id is read
    or formatted, and the wrapper is as it was. *)
Theorem Save_write_failure args s a cm :
  absent (Get MESSAGE_PROPERTY (handle_ (this s))) = false ->
  ToString (Get MESSAGE_PROPERTY (handle_ (this s))) <> "" ->
  signature_of_value (Get AUTHOR_PROPERTY (handle_ (this s))) = Some a ->
  signature_of_value (Get COMMITTER_PROPERTY (handle_ (this s))) = Some cm ->
  let c := commit_ (this s) in
  let m := ToString (Get MESSAGE_PROPERTY (handle_ (this s))) in
  let b3 :=
    after (git_commit_set_author c a)
      (after (git_commit_set_committer c cm)
         (after (git_commit_set_message c m) (repo s))) in
  answer (git_object_write c) b3 <> GIT_SUCCESS ->
  Save args s =
    (Throw (Error "Failed to save commit object."),
     {| this := this s; repo := after (git_object_write c) b3 |},
     [Git (git_commit_set_message c m); Git (git_commit_set_committer c cm);
      Git (git_commit_set_author c a); Git (git_object_write c)]).
Proof.
  intros Habs Hmsg Ha Hcm c m b3 Hw.
  rewrite (Save_validated args s a cm Habs Hmsg Ha Hcm). simpl.
  fold c m. fold b3. apply Z.eqb_neq in Hw. rewrite Hw. reflexivity.
Qed.

(** X14. A successful [Save] gives the wrapper its id.  When the wrapper is
    validated and the write succeeds, [Save] returns true; the [id] the
    wrapper shows is the formatted id the repository gives for the commit
    after the write, also when the wrapper had a read-only [id] before; every
    other property, the parent count and the reference count are as they
    were, and the write is the only one. *)
Theorem Save_success_assigns_id args s a cm :
  absent (Get MESSAGE_PROPERTY (handle_ (this s))) = false ->
  ToString (Get MESSAGE_PROPERTY (handle_ (this s))) <> "" ->
  signature_of_value (Get AUTHOR_PROPERTY (handle_ (this s))) = Some a ->
  signature_of_value (Get COMMITTER_PROPERTY (handle_ (this s))) = Some cm ->
  let c := commit_ (this s) in
  let m := ToString (Get MESSAGE_PROPERTY (handle_ (this s))) in
  let b3 :=
    after (git_commit_set_author c a)
      (after (git_commit_set_committer c cm)
         (after (git_commit_set_message c m) (repo s))) in
  let b4 := after (git_object_write c) b3 in
  let oidStr :=
    answer (git_oid_allocfmt (answer (git_commit_id c) b4))
      (after (git_commit_id c) b4) in
  answer (git_object_write c) b3 = GIT_SUCCESS ->
  let w := (Save args s).1.2.(this) in
  (Save args s).1.1 = Return (JSBoolean true) /\
  Get ID_PROPERTY (handle_ w) = JSString oidStr /\
  (forall name, name <> ID_PROPERTY ->
     Get name (handle_ w) = Get name (handle_ (this s))) /\
  commit_ w = c /\ parentCount_ w = parentCount_ (this s) /\
  refs_ w = refs_ (this s) /\
  count is_write (Save args s).2 = 1%nat.
Proof.
  intros Habs Hmsg Ha Hcm c m b3 b4 oidStr Hw w. subst w.
  rewrite (Save_validated args s a cm Habs Hmsg Ha Hcm). simpl.
  fold c m. fold b3. apply Z.eqb_eq in Hw. rewrite Hw. simpl.
  fold b4. fold oidStr.
  split; [reflexivity |]. split; [apply Get_ForceSet |].
  split; [| by repeat split].
  intros name Hname. apply Get_ForceSet_ne. congruence.
Qed.

(** ** processInitData, load *)

Lemma lookup_Set_fresh name v attribs (o : js_object) :
  o !! name = None ->
  Set_ name v attribs o !! name = Some {| value := v; attributes := attribs |}.
Proof.
  intros Hfresh. unfold Set_. rewrite Hfresh. by rewrite lookup_insert_eq.
Qed.

(** A property of a script object that had none, after the five [Set] of
    [processInitData]. *)
Ltac published :=
  rewrite ?lookup_Set_ne by (cbv; discriminate);
  rewrite lookup_Set_fresh;
  [reflexivity
  | rewrite ?lookup_Set_ne by (cbv; discriminate); apply lookup_empty].

(** X15. A new commit cannot be saved as it is.  [processInitData] with no
    data, on a wrapper whose script object has no property yet, calls neither
    libgit2 nor the lock: it sets [id], [message], [author] and [committer] to
    null and the parent count to 0.  [Save] on the wrapper it leaves throws
    for the missing message before calling anything. *)
Theorem new_commit_is_not_savable args s :
  handle_ (this s) = ∅ ->
  let s1 := (processInitData None s).1.2 in
  (processInitData None s).2 =
    [SetProperty ID_PROPERTY JSNull; SetProperty MESSAGE_PROPERTY JSNull;
     SetProperty AUTHOR_PROPERTY JSNull; SetProperty COMMITTER_PROPERTY JSNull;
     SetProperty PARENTCOUNT_PROPERTY (JSInt32 0)] /\
  repo s1 = repo s /\
  parentCount_ (this s1) = 0 /\
  Get ID_PROPERTY (handle_ (this s1)) = JSNull /\
  Get PARENTCOUNT_PROPERTY (handle_ (this s1)) = JSInt32 0 /\
  Save args s1 =
    (Throw (PropertyError "CHECK_PROPERTY" MESSAGE_PROPERTY), s1, []).
Proof.
  intros Hempty s1. subst s1.
  assert (Hget : forall name v (o : js_object),
             o !! name = Some v -> Get name o = value v).
  { intros name v o Ho. unfold Get. by rewrite Ho. }
  split; [reflexivity |]. split; [reflexivity |]. split; [reflexivity |].
  split; [| split].
  - unfold_binding. simpl. rewrite Hempty.
    erewrite Hget; [| published]. reflexivity.
  - unfold_binding. simpl. rewrite Hempty.
    erewrite Hget; [| published]. reflexivity.
  - apply Save_message_absent.
    unfold_binding. simpl. rewrite Hempty.
    erewrite Hget; [| published]. reflexivity.
Qed.

(** X16. What a load publishes.  After the load of a wrapper whose script
    object had no property yet, the wrapper shows the copies [loadInitData]
    returned: [id] and [parentCount] as read-only properties that cannot be
    deleted, [message], [author] and [committer] as plain ones; its parent
    counter is the copied count; its commit and its reference count are as
    they were. *)
Theorem load_publishes_the_copies s :
  handle_ (this s) = ∅ ->
  exists data : commit_data,
    (loadInitData s).1.1 = Return data /\
    let w := (load s).1.2.(this) in
    handle_ w !! ID_PROPERTY =
      Some {| value := JSString (id data);
              attributes := Z.lor ReadOnly DontDelete |} /\
    handle_ w !! MESSAGE_PROPERTY =
      Some {| value := JSString (message data); attributes := None_ |} /\
    handle_ w !! AUTHOR_PROPERTY =
      Some {| value := person_of_signature (author data);
              attributes := None_ |} /\
    handle_ w !! COMMITTER_PROPERTY =
      Some {| value := person_of_signature (committer data);
              attributes := None_ |} /\
    handle_ w !! PARENTCOUNT_PROPERTY =
      Some {| value := JSInt32 (parentCount data);
              attributes := Z.lor ReadOnly DontDelete |} /\
    parentCount_ w = parentCount data /\
    commit_ w = commit_ (this s) /\ refs_ w = refs_ (this s).
Proof.
  intros Hempty. run.
  repeat match goal with u : unit |- _ => destruct u end.
  eexists. split; [reflexivity |]. simpl. rewrite Hempty.
  repeat split; published.
Qed.

(** ** What no operation does *)

(** X17. The wrapper stays on its commit.  No operation of the binding
    changes [commit_]: not [GetTree], [SetTree], [GetParent], the worker step,
    the completion, [AddParent], [Save], nor the load.  [GetTree], [SetTree],
    the worker step and [loadInitData] change nothing of the wrapper at
    all. *)
Theorem wrapper_stays_on_its_commit tree0 args (req : get_parent_request)
  (data : option commit_data) s :
  ((GetTree args s).1.2.(this) = this s /\
   (SetTree tree0 args s).1.2.(this) = this s /\
   (EIO_GetParent req s).1.2.(this) = this s /\
   (loadInitData s).1.2.(this) = this s)
  /\
  (commit_ (GetParent args s).1.2.(this) = commit_ (this s) /\
   commit_ (EIO_AfterGetParent req s).1.2.(this) = commit_ (this s) /\
   commit_ (AddParent args s).1.2.(this) = commit_ (this s) /\
   commit_ (Save args s).1.2.(this) = commit_ (this s) /\
   commit_ (processInitData data s).1.2.(this) = commit_ (this s) /\
   commit_ (load s).1.2.(this) = commit_ (this s)).
Proof.
  split.
  - repeat split; run; reflexivity.
  - repeat split; try (destruct data); run; reflexivity.
Qed.

(** X18. Only [Save] writes.  Neither [GetTree], [SetTree], [GetParent],
    the worker step, the completion, [AddParent] nor the load calls
    [git_object_write]: what [SetTree] and [AddParent] change is the libgit2
    commit in memory.  [GetTree], [GetParent], the worker step, the completion
    and the load call no libgit2 function that changes the repository at
    all. *)
Theorem only_Save_writes tree0 args (req : get_parent_request) s :
  (count is_write (GetTree args s).2 = 0%nat /\
   count is_write (SetTree tree0 args s).2 = 0%nat /\
   count is_write (GetParent args s).2 = 0%nat /\
   count is_write (EIO_GetParent req s).2 = 0%nat /\
   count is_write (EIO_AfterGetParent req s).2 = 0%nat /\
   count is_write (AddParent args s).2 = 0%nat /\
   count is_write (load s).2 = 0%nat)
  /\
  (count is_backend_mutation (GetTree args s).2 = 0%nat /\
   count is_backend_mutation (GetParent args s).2 = 0%nat /\
   count is_backend_mutation (EIO_GetParent req s).2 = 0%nat /\
   count is_backend_mutation (EIO_AfterGetParent req s).2 = 0%nat /\
   count is_backend_mutation (load s).2 = 0%nat).
Proof.
  split; repeat split; run; reflexivity.
Qed.

(** ** addParent, then getParent *)

(** X19. The parent just added is within bounds.  On a wrapper that counts
    [n] parents, with [n] a count below [INT_MAX], [GetParent] for the index
    [n] is out of bounds; after an [AddParent] that returned, the same call
    passes the bound check and resolves the parent [n] of the commit under the
    lock. *)
Theorem added_parent_is_in_bounds args s :
  0 <= parentCount_ (this s) < INT_MAX ->
  (AddParent args s).1.1 = Return JSUndefined ->
  let n := parentCount_ (this s) in
  let s1 := (AddParent args s).1.2 in
  GetParent [JSInt32 n] s = (Throw out_of_bounds, s, []) /\
  exists t,
    (GetParent [JSInt32 n] s1).2 =
      lockRepository :: Git (git_commit_parent (commit_ (this s)) n)
        :: unlockRepository :: t.
Proof.
  intros Hn Hret n s1. subst s1. split.
  - apply GetParent_out_of_bounds with (idx := n);
      [simpl; lia | reflexivity | unfold n; lia].
  - destruct (AddParent_cases args s) as [_ [(Hthrow & _) | (_ & Hthis & _)]].
    + rewrite Hret in Hthrow. discriminate.
    + assert (Hlt : n < parentCount_ (this (AddParent args s).1.2)).
      { rewrite Hthis. unfold parent_added. simpl.
        rewrite int32_small; unfold INT_MAX in *; unfold n; lia. }
      rewrite (GetParent_inline [JSInt32 n] _ n eq_refl eq_refl Hlt).
      simpl. rewrite Hthis. simpl. eexists. reflexivity.
Qed.

(** ** New *)

(** X20. A wrapper never shows the parent count it was constructed with.
    [New] on an [External] gives a wrapper of the commit the [External]
    carries, with no reference taken; without an argument, or with another
    value, it throws and constructs nothing.  The parent count of the new
    wrapper is not assigned by the constructor, and [processInitData], with
    or without data, assigns it before reading it: the wrapper and the trace
    after [processInitData] do not depend on what the field held. *)
Theorem New_then_processInitData (g g' : Z) (This : js_object)
  (theCommit : ptr) (rest : list new_arg) (v : jsval)
  (data : option commit_data) (b : B) :
  let w (n : Z) :=
    {| handle_ := This; commit_ := theCommit; parentCount_ := n; refs_ := 0 |} in
  New g This (External theCommit :: rest) = Return (w g) /\
  New g This [] = Throw (ArgumentError "REQ_ARGS" 1) /\
  New g This (Value v :: rest) = Throw (ArgumentError "REQ_EXT_ARG" 0) /\
  processInitData data {| this := w g; repo := b |} =
    processInitData data {| this := w g'; repo := b |} /\
  commit_ (processInitData data {| this := w g; repo := b |}).1.2.(this)
    = theCommit.
Proof.
  intros w. split; [reflexivity |]. split; [reflexivity |].
  split; [reflexivity |].
  destruct data as [d |]; run; split; reflexivity.
Qed.

End Coverage.

(** * The binding on the small repository *)

Import Sample.

(** The scenarios of the specification. *)
Example loaded_commit_fields :
  Get MESSAGE_PROPERTY (handle_ loaded_commit) = JSString "initial" /\
  Get PARENTCOUNT_PROPERTY (handle_ loaded_commit) = JSInt32 1 /\
  Get ID_PROPERTY (handle_ loaded_commit) = JSString empty_tree_id.
Proof. repeat split. Qed.

Example new_commit_two_parents :
  Get PARENTCOUNT_PROPERTY
    (handle_
       (calls AddParent
          [[JSInstance CommitTemplate 4096]; [JSInstance CommitTemplate 4096]]
          created).1.2.(this)) = JSInt32 2.
Proof. reflexivity. Qed.

Example new_commit_save_without_message :
  Save [] created =
    (Throw (PropertyError "CHECK_PROPERTY" MESSAGE_PROPERTY), created, []) /\
  Get ID_PROPERTY (handle_ (this created)) = JSNull.
Proof. split; reflexivity. Qed.

(** Witness of C1: a new commit with an empty message, and one with the
    message "hello", an author and a committer. *)
Lemma Save_fail_fast_witness :
  (ToString (Get MESSAGE_PROPERTY (handle_ (this empty_message))) = "" /\
   exists e,
     Save [] empty_message = (Throw e, empty_message, []) /\
     (e = PropertyError "CHECK_PROPERTY" MESSAGE_PROPERTY \/
      e = Error "Message must not be empty."))
  /\
  (absent (Get MESSAGE_PROPERTY (handle_ (this ready))) = false /\
   ToString (Get MESSAGE_PROPERTY (handle_ (this ready))) <> "" /\
   is_Some (signature_of_value (Get AUTHOR_PROPERTY (handle_ (this ready)))) /\
   is_Some (signature_of_value (Get COMMITTER_PROPERTY (handle_ (this ready)))) /\
   count is_write (Save [] ready).2 = 1%nat).
Proof.
  split.
  - split; [reflexivity |].
    apply (proj1 (Save_fail_fast [] empty_message)). right. reflexivity.
  - assert (H1 : absent (Get MESSAGE_PROPERTY (handle_ (this ready))) = false)
      by reflexivity.
    assert (H2 : ToString (Get MESSAGE_PROPERTY (handle_ (this ready))) <> "")
      by (vm_compute; discriminate).
    assert (H3 : is_Some (signature_of_value
                            (Get AUTHOR_PROPERTY (handle_ (this ready)))))
      by (eexists; reflexivity).
    assert (H4 : is_Some (signature_of_value
                            (Get COMMITTER_PROPERTY (handle_ (this ready)))))
      by (eexists; reflexivity).
    repeat (split; [assumption |]).
    exact (proj2 (Save_fail_fast [] ready) H1 H2 H3 H4).
Defined.

(** Witness of C4: the write of a well-described commit fails. *)
Lemma Save_failure_leaves_wrapper_witness :
  Save [] ready_failing =
    (Throw (Error "Failed to save commit object."),
     (Save [] ready_failing).1.2, (Save [] ready_failing).2) /\
  this (Save [] ready_failing).1.2 = this ready_failing /\
  Get ID_PROPERTY (handle_ (this (Save [] ready_failing).1.2)) =
    Get ID_PROPERTY (handle_ (this ready_failing)).
Proof.
  assert (H : Save [] ready_failing =
              (Throw (Error "Failed to save commit object."),
               (Save [] ready_failing).1.2, (Save [] ready_failing).2))
    by reflexivity.
  split; [exact H |].
  exact (Save_failure_leaves_wrapper [] ready_failing _ _ _ H).
Defined.

(** Witness of C3: three calls on a new commit, the second of which is
    refused. *)
Lemma AddParent_counter_witness :
  shows_parentCount (this created) /\
  0 <= parentCount_ (this created) /\
  parentCount_ (this created)
    + returned (calls AddParent three_calls created).1.1 <= INT_MAX /\
  returned (calls AddParent three_calls created).1.1 = 2 /\
  parentCount_ (calls AddParent three_calls created).1.2.(this) =
    parentCount_ (this created)
    + returned (calls AddParent three_calls created).1.1 /\
  Get PARENTCOUNT_PROPERTY
    (handle_ (calls AddParent three_calls created).1.2.(this)) =
    JSInt32 (parentCount_ (this created)
             + returned (calls AddParent three_calls created).1.1) /\
  count is_parentcount_read (calls AddParent three_calls created).2 = 0%nat.
Proof.
  assert (H1 : shows_parentCount (this created)) by reflexivity.
  assert (H2 : 0 <= parentCount_ (this created)) by (vm_compute; discriminate).
  assert (H3 : parentCount_ (this created)
               + returned (calls AddParent three_calls created).1.1 <= INT_MAX)
    by (vm_compute; discriminate).
  split; [exact H1 |]. split; [exact H2 |]. split; [exact H3 |].
  split; [reflexivity |].
  exact (AddParent_counter three_calls created H1 H2 H3).
Defined.

(** Witness of C9: the append fails, the count goes up. *)
Lemma AddParent_counts_unconditionally_witness :
  (git_exec (git_commit_add_parent 1024 4096) failing_repo).1 = -1 /\
  le 1 (count is_append
          (AddParent [JSInstance CommitTemplate 4096] created_failing).2) /\
  (AddParent [JSInstance CommitTemplate 4096] created_failing).1.1 =
    Return JSUndefined /\
  parentCount_ (this miscounted) = int32 (parentCount_ (this created_failing) + 1) /\
  Get PARENTCOUNT_PROPERTY (handle_ (this miscounted)) =
    JSInt32 (int32 (parentCount_ (this created_failing) + 1)).
Proof.
  assert (H : le 1 (count is_append
                      (AddParent [JSInstance CommitTemplate 4096]
                         created_failing).2))
    by (vm_compute; lia).
  split; [reflexivity |]. split; [exact H |].
  exact (AddParent_counts_unconditionally
           [JSInstance CommitTemplate 4096] created_failing H).
Defined.

(** Witness of C10: the index -1 on the loaded commit, without and with a
    callback. *)
Lemma GetParent_negative_index_reaches_backend_witness :
  (exists t,
     (GetParent [JSInt32 (-1)] loaded).2 =
       lockRepository :: Git (git_commit_parent 1024 (-1))
         :: unlockRepository :: t)
  /\
  (submitted (GetParent [JSInt32 (-1); JSFunction "cb"] loaded).2 =
     [request_of "cb" (-1)] /\
   (EIO_GetParent (request_of "cb" (-1)) loaded).2 =
     [lockRepository; Git (git_commit_parent 1024 (-1)); unlockRepository]).
Proof.
  assert (Hneg : -1 < 0) by lia.
  assert (Hcount : 0 <= parentCount_ (this loaded)) by (vm_compute; discriminate).
  split.
  - assert (Hlen : (1 <= length [JSInt32 (-1)])%nat) by (simpl; lia).
    exact (proj1 (proj2 (GetParent_negative_index_reaches_backend
                           [JSInt32 (-1)] loaded (-1) Hlen eq_refl)
                    Hneg Hcount) eq_refl).
  - assert (Hlen : (1 <= length [JSInt32 (-1); JSFunction "cb"])%nat)
      by (simpl; lia).
    assert (Hmore : (1 < length [JSInt32 (-1); JSFunction "cb"])%nat)
      by (simpl; lia).
    destruct (proj2 (proj2 (GetParent_negative_index_reaches_backend
                              [JSInt32 (-1); JSFunction "cb"] loaded (-1)
                              Hlen eq_refl)
                       Hneg Hcount) "cb" Hmore eq_refl) as [Hsub Hworker].
    split; [exact Hsub | exact (Hworker loaded)].
Defined.

(** Counterexample to C6 as stated: a deferred call, with a callback, for
    the parent 5 of a commit that has one parent.  The error is thrown by
    [GetParent] itself; no request is submitted, so no completion callback
    ever delivers it. *)
Lemma GetParent_deferred_out_of_bounds_thrown :
  GetParent [JSInt32 5; JSFunction "cb"] loaded =
    (Throw out_of_bounds, loaded, []) /\
  submitted (GetParent [JSInt32 5; JSFunction "cb"] loaded).2 = [] /\
  count is_callback (GetParent [JSInt32 5; JSFunction "cb"] loaded).2 = 0%nat.
Proof. repeat split. Qed.

(** Witness of C6: the parent 5 of the loaded commit, with a callback; the
    parent 0 of the miscounted commit, without and with a callback. *)
Lemma GetParent_missing_parent_reported_witness :
  GetParent [JSInt32 5; JSFunction "cb"] loaded =
    (Throw out_of_bounds, loaded, [])
  /\
  ((GetParent [JSInt32 0] miscounted).1.1 =
     Throw (Error "Error getting parent.") /\
   (GetParent [JSInt32 0] miscounted).2 =
     [lockRepository; Git (git_commit_parent 1024 0); unlockRepository])
  /\
  ((GetParent [JSInt32 0; JSFunction "cb"] miscounted).1.1 = Return JSUndefined /\
   submitted (GetParent [JSInt32 0; JSFunction "cb"] miscounted).2 =
     [request_of "cb" 0] /\
   (eio_run (request_of "cb" 0) miscounted).1.1 = Return 0 /\
   (eio_run (request_of "cb" 0) miscounted).2 =
     [lockRepository; Git (git_commit_parent 1024 0); unlockRepository;
      ev_unref; Unref;
      Call (JSFunction "cb")
        [JSException (Error "Couldn't get parent commit."); JSNull];
      Dispose (JSFunction "cb"); delete_request]).
Proof.
  assert (Hlen2 : forall v w : jsval, (1 <= length [v; w])%nat)
    by (intros; simpl; lia).
  assert (Hmore : forall v w : jsval, (1 < length [v; w])%nat)
    by (intros; simpl; lia).
  assert (Hlen1 : forall v : jsval, (1 <= length [v])%nat)
    by (intros; simpl; lia).
  assert (Hout : parentCount_ (this loaded) <= 5) by (vm_compute; discriminate).
  assert (Hin : 0 < parentCount_ (this miscounted)) by (vm_compute; reflexivity).
  assert (Hnull : (git_exec (git_commit_parent (commit_ (this miscounted)) 0)
                     (repo miscounted)).1 = NULL) by reflexivity.
  split; [| split].
  - exact (proj1 (GetParent_missing_parent_reported
                    [JSInt32 5; JSFunction "cb"] loaded 5
                    (Hlen2 _ _) eq_refl) Hout).
  - exact (proj1 (proj2 (GetParent_missing_parent_reported
                           [JSInt32 0] miscounted 0 (Hlen1 _) eq_refl))
             Hin eq_refl Hnull).
  - destruct (proj2 (proj2 (GetParent_missing_parent_reported
                              [JSInt32 0; JSFunction "cb"] miscounted 0
                              (Hlen2 _ _) eq_refl))
                Hin "cb" (Hmore _ _) eq_refl) as (Hr & Hsub & _ & Hrun).
    destruct (Hrun miscounted) as [_ Hdelivered].
    destruct (Hdelivered Hnull) as [Hres Htrace].
    repeat split; assumption.
Defined.

(** Counterexample to C7 as stated: the deferred request for the parent 0
    of the miscounted commit.  In the run of the request the reference is
    given back before the callback is called: the only call of the callback
    comes after [Unref]. *)
Lemma Unref_precedes_callback :
  submitted (GetParent [JSInt32 0; JSFunction "cb"] miscounted).2 =
    [request_of "cb" 0] /\
  exists before after,
    (eio_run (request_of "cb" 0) miscounted).2 = before ++ Unref :: after /\
    count is_callback before = 0%nat /\
    count is_unref before = 0%nat /\
    after =
      [Call (JSFunction "cb")
         [JSException (Error "Couldn't get parent commit."); JSNull];
       Dispose (JSFunction "cb"); delete_request].
Proof.
  split; [reflexivity |].
  exists [lockRepository; Git (git_commit_parent 1024 0); unlockRepository;
          ev_unref].
  eexists. repeat split.
Qed.

(** Witness of C7: the deferred request for the parent 0 of the loaded
    commit. *)
Lemma GetParent_deferred_reference_witness :
  ((GetParent [JSInt32 0; JSFunction "cb"] loaded).2 =
     [Ref; eio_custom (request_of "cb" 0); ev_ref] /\
   refs_ (GetParent [JSInt32 0; JSFunction "cb"] loaded).1.2.(this) =
     refs_ (this loaded) + 1)
  /\
  refs_ (eio_run (request_of "cb" 0)
           (GetParent [JSInt32 0; JSFunction "cb"] loaded).1.2).1.2.(this) =
    refs_ (this loaded).
Proof.
  assert (Hmore : (1 < length [JSInt32 0; JSFunction "cb"])%nat)
    by (simpl; lia).
  assert (Hin : 0 < parentCount_ (this loaded)) by (vm_compute; reflexivity).
  destruct (GetParent_deferred_reference
              [JSInt32 0; JSFunction "cb"] loaded 0 "cb"
              Hmore eq_refl Hin eq_refl) as (Hsubmit & _ & _ & Hrun).
  split; [exact Hsubmit |].
  rewrite Hrun. destruct Hsubmit as [_ ->]. lia.
Defined.

(** * More of the binding on the small repository *)

(** Witness of X1: an id that does not parse, and one no object has. *)
Lemma SetTree_by_id_failures_witness :
  (answer (git_oid_mkstr "xyz") (repo loaded)).1 <> GIT_SUCCESS /\
  SetTree 0 [JSString "xyz"] loaded =
    (Throw (GitError "Id is invalid" (-2)), loaded,
     [Git (git_oid_mkstr "xyz")]) /\
  (answer (git_oid_mkstr unknown_id) (repo loaded)).1 = GIT_SUCCESS /\
  (SetTree 0 [JSString unknown_id] loaded).1.1 =
    Throw (GitError "Error locating tree" (-3)) /\
  count is_backend_mutation (SetTree 0 [JSString unknown_id] loaded).2 = 0%nat.
Proof.
  assert (H1 : (answer (git_oid_mkstr "xyz") (repo loaded)).1 <> GIT_SUCCESS)
    by (vm_compute; discriminate).
  assert (H2 : (answer (git_oid_mkstr unknown_id) (repo loaded)).1 = GIT_SUCCESS)
    by reflexivity.
  assert (H3 : (answer
                  (git_tree_lookup
                     (answer (git_oid_mkstr unknown_id) (repo loaded)).2)
                  (after (git_oid_mkstr unknown_id) (repo loaded))).1
               <> GIT_SUCCESS)
    by (vm_compute; discriminate).
  split; [exact H1 |].
  split;
    [exact (proj1 (SetTree_by_id_failures 0 [JSString "xyz"] loaded "xyz"
                     eq_refl) H1) |].
  split; [exact H2 |].
  destruct (proj2 (SetTree_by_id_failures 0 [JSString unknown_id] loaded
                     unknown_id eq_refl) H2 H3) as (Hr & Ht & _).
  split; [exact Hr | rewrite Ht; reflexivity].
Defined.

(** Witness of X2: the tree by its id, and by its wrapper. *)
Lemma SetTree_sets_resolved_tree_witness :
  (SetTree 0 [JSString empty_tree_id] loaded).2 =
    [Git (git_oid_mkstr empty_tree_id); Git (git_tree_lookup an_oid);
     Git (git_commit_set_tree 1024 4096)] /\
  (SetTree 0 [JSInstance TreeTemplate 4096] loaded).2 =
    [Git (git_commit_set_tree 1024 4096)] /\
  (SetTree 0 [JSInstance TreeTemplate 4096] loaded).1.1 = Return JSUndefined.
Proof.
  assert (H1 : (answer (git_oid_mkstr empty_tree_id) (repo loaded)).1
               = GIT_SUCCESS) by (vm_compute; reflexivity).
  assert (H2 : (answer
                  (git_tree_lookup
                     (answer (git_oid_mkstr empty_tree_id) (repo loaded)).2)
                  (after (git_oid_mkstr empty_tree_id) (repo loaded))).1
               = GIT_SUCCESS) by (vm_compute; reflexivity).
  destruct (proj1 (SetTree_sets_resolved_tree 0 [JSString empty_tree_id] loaded)
              empty_tree_id eq_refl H1 H2) as (_ & Ht & _).
  split; [exact Ht |].
  rewrite (proj2 (SetTree_sets_resolved_tree
                    0 [JSInstance TreeTemplate 4096] loaded) 4096 eq_refl).
  split; reflexivity.
Defined.

(** Witness of X3: no argument, and a Commit wrapper. *)
Lemma SetTree_unassigned_tree_witness :
  (SetTree 777 [] loaded).2 = [Git (git_commit_set_tree 1024 777)] /\
  (SetTree 777 [JSInstance CommitTemplate 4096] loaded).1.1 =
    Return JSUndefined /\
  (SetTree 777 [JSInstance CommitTemplate 4096] loaded).2 =
    [Git (git_commit_set_tree 1024 777)].
Proof.
  destruct (SetTree_unassigned_tree 777 [] loaded eq_refl) as (_ & Ht & _).
  destruct (SetTree_unassigned_tree 777 [JSInstance CommitTemplate 4096]
              loaded eq_refl) as (Hr & Ht' & _).
  split; [exact Ht |]. split; [exact Hr | exact Ht'].
Defined.

(** Witness of X5: an id that does not parse, and one no object has. *)
Lemma AddParent_by_id_failures_witness :
  (answer (git_oid_mkstr "xyz") (repo created)).1 <> GIT_SUCCESS /\
  AddParent [JSString "xyz"] created =
    (Throw (GitError "Id is invalid" (-2)), created,
     [Git (git_oid_mkstr "xyz")]) /\
  (AddParent [JSString unknown_id] created).1.1 =
    Throw (GitError "Error locating commit" (-3)) /\
  (AddParent [JSString unknown_id] created).1.2.(this) = this created.
Proof.
  assert (H1 : (answer (git_oid_mkstr "xyz") (repo created)).1 <> GIT_SUCCESS)
    by (vm_compute; discriminate).
  assert (H2 : (answer (git_oid_mkstr unknown_id) (repo created)).1
               = GIT_SUCCESS) by reflexivity.
  assert (H3 : (answer
                  (git_commit_lookup
                     (answer (git_oid_mkstr unknown_id) (repo created)).2)
                  (after (git_oid_mkstr unknown_id) (repo created))).1
               <> GIT_SUCCESS)
    by (vm_compute; discriminate).
  split; [exact H1 |].
  split;
    [exact (proj1 (AddParent_by_id_failures [JSString "xyz"] created "xyz"
                     eq_refl) H1) |].
  destruct (proj2 (AddParent_by_id_failures [JSString unknown_id] created
                     unknown_id eq_refl) H2 H3) as (Hr & _ & Hthis).
  split; [exact Hr | exact Hthis].
Defined.

(** Witness of X6: a Tree wrapper. *)
Lemma AddParent_refuses_other_kinds_witness :
  AddParent [JSInstance TreeTemplate 8192] created =
    (Throw (Error "Invalid argument."), created, []).
Proof.
  assert (Hlen : le 1 (length [JSInstance TreeTemplate 8192]))
    by (simpl; lia).
  exact (proj1 (AddParent_refuses_other_kinds
                  [JSInstance TreeTemplate 8192] created Hlen eq_refl)).
Defined.

(** Witness of X7: the wrapper of the commit itself, and the id of a known
    commit. *)
Lemma AddParent_appends_resolved_commit_witness :
  commit_ (this created) = 1024 /\
  (AddParent [JSInstance CommitTemplate 1024] created).2 =
    [Git (git_commit_add_parent 1024 1024);
     SetProperty "parentCount" (JSInt32 1)] /\
  (AddParent [JSString empty_tree_id] created).2 =
    [Git (git_oid_mkstr empty_tree_id); Git (git_commit_lookup an_oid);
     Git (git_commit_add_parent 1024 4096);
     SetProperty "parentCount" (JSInt32 1)].
Proof.
  split; [reflexivity |]. split.
  - rewrite (proj1 (AddParent_appends_resolved_commit
                      [JSInstance CommitTemplate 1024] created) 1024 eq_refl).
    reflexivity.
  - assert (H1 : (answer (git_oid_mkstr empty_tree_id) (repo created)).1
                 = GIT_SUCCESS) by (vm_compute; reflexivity).
    assert (H2 : (answer
                    (git_commit_lookup
                       (answer (git_oid_mkstr empty_tree_id) (repo created)).2)
                    (after (git_oid_mkstr empty_tree_id) (repo created))).1
                 = GIT_SUCCESS) by (vm_compute; reflexivity).
    destruct (proj2 (AddParent_appends_resolved_commit
                       [JSString empty_tree_id] created)
                empty_tree_id eq_refl H1 H2) as [_ Ht].
    exact Ht.
Defined.

(** Witness of X10: the parent 0 of the loaded commit. *)
Lemma GetParent_modes_agree_witness :
  0 < parentCount_ (this loaded) /\
  answer (git_commit_parent 1024 0) (repo loaded) = 4096 /\
  (GetParent [JSInt32 0] loaded).1.1 = Return (JSInstance CommitTemplate 4096) /\
  (eio_run (request_of "cb" 0) loaded).2 =
    [lockRepository; Git (git_commit_parent 1024 0); unlockRepository;
     ev_unref; Unref; asyncRequestObject CommitTemplate 4096 (JSFunction "cb");
     delete_request].
Proof.
  assert (Hlt : 0 < parentCount_ (this loaded)) by (vm_compute; reflexivity).
  assert (Hp : answer (git_commit_parent (commit_ (this loaded)) 0)
                 (repo loaded) <> NULL) by (vm_compute; discriminate).
  destruct (GetParent_modes_agree loaded 0 "cb" Hlt Hp) as [Hinline Hrun].
  split; [exact Hlt |]. split; [reflexivity |].
  rewrite Hinline, Hrun. split; reflexivity.
Defined.

(** Witness of X11: the deferred request for the parent 0 of the loaded
    commit. *)
Lemma deferred_request_round_trip_witness :
  (eio_run (request_of "cb" 0)
     (GetParent [JSInt32 0; JSFunction "cb"] loaded).1.2).1.2.(this)
    = this loaded /\
  count is_callback
    ((GetParent [JSInt32 0; JSFunction "cb"] loaded).2
       ++ (eio_run (request_of "cb" 0)
             (GetParent [JSInt32 0; JSFunction "cb"] loaded).1.2).2) = 1%nat.
Proof.
  assert (Hmore : (1 < length [JSInt32 0; JSFunction "cb"])%nat)
    by (simpl; lia).
  assert (Hlt : 0 < parentCount_ (this loaded)) by (vm_compute; reflexivity).
  destruct (deferred_request_round_trip [JSInt32 0; JSFunction "cb"] loaded
              0 "cb" Hmore eq_refl Hlt eq_refl)
    as (_ & Hthis & _ & _ & _ & _ & _ & Hcb & _).
  split; [exact Hthis | exact Hcb].
Defined.

(** Witness of X12: a new commit with a message only, and one without a
    committer. *)
Lemma Save_signatures_fail_fast_witness :
  Save [] only_message =
    (Throw (PropertyError "GET_SIGNATURE_PROPERTY" AUTHOR_PROPERTY),
     only_message, []) /\
  Save [] no_committer =
    (Throw (PropertyError "GET_SIGNATURE_PROPERTY" COMMITTER_PROPERTY),
     no_committer, []).
Proof.
  assert (H1 : ToString (Get MESSAGE_PROPERTY (handle_ (this only_message)))
               <> "") by (vm_compute; discriminate).
  assert (H2 : ToString (Get MESSAGE_PROPERTY (handle_ (this no_committer)))
               <> "") by (vm_compute; discriminate).
  assert (H3 : is_Some (signature_of_value
                          (Get AUTHOR_PROPERTY (handle_ (this no_committer)))))
    by (eexists; reflexivity).
  assert (A1 : absent (Get MESSAGE_PROPERTY (handle_ (this only_message)))
               = false) by (vm_compute; reflexivity).
  assert (A2 : absent (Get MESSAGE_PROPERTY (handle_ (this no_committer)))
               = false) by (vm_compute; reflexivity).
  assert (N1 : signature_of_value
                 (Get AUTHOR_PROPERTY (handle_ (this only_message))) = None)
    by (vm_compute; reflexivity).
  assert (N2 : signature_of_value
                 (Get COMMITTER_PROPERTY (handle_ (this no_committer))) = None)
    by (vm_compute; reflexivity).
  split.
  - exact (proj1 (Save_signatures_fail_fast [] only_message A1 H1) N1).
  - exact (proj2 (Save_signatures_fail_fast [] no_committer A2 H2) H3 N2).
Defined.

(** Witness of X13: the write of a well-described commit fails. *)
Lemma Save_write_failure_witness :
  (Save [] ready_failing).1.1 = Throw (Error "Failed to save commit object.") /\
  (Save [] ready_failing).2 =
    [Git (git_commit_set_message 1024 "hello");
     Git (git_commit_set_committer 1024 sam);
     Git (git_commit_set_author 1024 sam); Git (git_object_write 1024)] /\
  head_message (repo (Save [] ready_failing).1.2) = "hello".
Proof.
  assert (H1 : ToString (Get MESSAGE_PROPERTY (handle_ (this ready_failing)))
               <> "") by (vm_compute; discriminate).
  assert (Hw : answer (git_object_write (commit_ (this ready_failing)))
                 (after (git_commit_set_author (commit_ (this ready_failing)) sam)
                    (after (git_commit_set_committer
                              (commit_ (this ready_failing)) sam)
                       (after (git_commit_set_message
                                 (commit_ (this ready_failing))
                                 (ToString (Get MESSAGE_PROPERTY
                                              (handle_ (this ready_failing)))))
                          (repo ready_failing))))
               <> GIT_SUCCESS) by (vm_compute; discriminate).
  assert (A : absent (Get MESSAGE_PROPERTY (handle_ (this ready_failing)))
              = false) by (vm_compute; reflexivity).
  assert (Sa : signature_of_value
                 (Get AUTHOR_PROPERTY (handle_ (this ready_failing)))
               = Some sam) by (vm_compute; reflexivity).
  assert (Sc : signature_of_value
                 (Get COMMITTER_PROPERTY (handle_ (this ready_failing)))
               = Some sam) by (vm_compute; reflexivity).
  rewrite (Save_write_failure [] ready_failing sam sam A H1 Sa Sc Hw).
  repeat split.
Defined.

(** Witness of X14: the write of a well-described commit succeeds. *)
Lemma Save_success_assigns_id_witness :
  (Save [] ready).1.1 = Return (JSBoolean true) /\
  Get ID_PROPERTY (handle_ (this ready)) = JSNull /\
  Get ID_PROPERTY (handle_ (Save [] ready).1.2.(this)) =
    JSString empty_tree_id /\
  Get MESSAGE_PROPERTY (handle_ (Save [] ready).1.2.(this)) = JSString "hello".
Proof.
  assert (H1 : ToString (Get MESSAGE_PROPERTY (handle_ (this ready))) <> "")
    by (vm_compute; discriminate).
  assert (A : absent (Get MESSAGE_PROPERTY (handle_ (this ready))) = false)
    by (vm_compute; reflexivity).
  assert (Sa : signature_of_value (Get AUTHOR_PROPERTY (handle_ (this ready)))
               = Some sam) by (vm_compute; reflexivity).
  assert (Sc : signature_of_value
                 (Get COMMITTER_PROPERTY (handle_ (this ready)))
               = Some sam) by (vm_compute; reflexivity).
  assert (Hw : answer (git_object_write (commit_ (this ready)))
                 (after (git_commit_set_author (commit_ (this ready)) sam)
                    (after (git_commit_set_committer (commit_ (this ready)) sam)
                       (after (git_commit_set_message (commit_ (this ready))
                                 (ToString (Get MESSAGE_PROPERTY
                                              (handle_ (this ready)))))
                          (repo ready))))
               = GIT_SUCCESS) by (vm_compute; reflexivity).
  destruct (Save_success_assigns_id [] ready sam sam A H1 Sa Sc Hw)
    as (Hr & Hid & Hother & _).
  split; [exact Hr |]. split; [reflexivity |]. split; [exact Hid |].
  rewrite (Hother MESSAGE_PROPERTY) by discriminate. reflexivity.
Defined.

(** Witness of X15: a wrapper just allocated. *)
Lemma new_commit_is_not_savable_witness :
  handle_ (this unallocated) = ∅ /\
  (processInitData None unallocated).1.2 = created /\
  Save [] created =
    (Throw (PropertyError "CHECK_PROPERTY" MESSAGE_PROPERTY), created, []).
Proof.
  split; [reflexivity |]. split; [reflexivity |].
  destruct (new_commit_is_not_savable [] unallocated eq_refl)
    as (_ & _ & _ & _ & _ & Hsave).
  exact Hsave.
Defined.

(** Witness of X16: the load of the commit of the small repository. *)
Lemma load_publishes_the_copies_witness :
  handle_ (this unallocated) = ∅ /\
  exists data : commit_data,
    (loadInitData unallocated).1.1 = Return data /\
    message data = "initial" /\ parentCount data = 1 /\
    handle_ (load unallocated).1.2.(this) !! PARENTCOUNT_PROPERTY =
      Some {| value := JSInt32 1; attributes := 5 |}.
Proof.
  split; [reflexivity |].
  destruct (load_publishes_the_copies unallocated eq_refl)
    as (data & Hdata & _ & _ & _ & _ & Hcount & _).
  exists data. split; [exact Hdata |].
  assert (Hd : Return data = (loadInitData unallocated).1.1) by (symmetry; exact Hdata).
  injection Hd as ->.
  split; [reflexivity |]. split; [reflexivity | exact Hcount].
Defined.

(** Witness of X19: a new commit, before and after its first parent. *)
Lemma added_parent_is_in_bounds_witness :
  GetParent [JSInt32 0] created = (Throw out_of_bounds, created, []) /\
  exists t,
    (GetParent [JSInt32 0]
       (AddParent [JSInstance CommitTemplate 4096] created).1.2).2 =
      lockRepository :: Git (git_commit_parent 1024 0) :: unlockRepository :: t.
Proof.
  assert (Hn : 0 <= parentCount_ (this created) < INT_MAX)
    by (vm_compute; split; discriminate || reflexivity).
  exact (added_parent_is_in_bounds [JSInstance CommitTemplate 4096] created
           Hn eq_refl).
Defined.

(** Witness of C8: the load of the commit of the small repository into a
    wrapper just allocated. *)
Lemma load_copies_then_publishes_witness :
  handle_ (this unallocated) = ∅ /\
  Get ID_PROPERTY (handle_ (load unallocated).1.2.(this)) =
    JSString empty_tree_id /\
  Get MESSAGE_PROPERTY (handle_ (load unallocated).1.2.(this)) =
    JSString "initial" /\
  Get AUTHOR_PROPERTY (handle_ (load unallocated).1.2.(this)) = to_person sam /\
  Get COMMITTER_PROPERTY (handle_ (load unallocated).1.2.(this)) =
    to_person sam /\
  Get PARENTCOUNT_PROPERTY (handle_ (load unallocated).1.2.(this)) = JSInt32 1.
Proof.
  assert (Hempty : handle_ (this unallocated) = ∅) by reflexivity.
  split; [exact Hempty |].
  destruct (load_copies_then_publishes unallocated)
    as (_ & Hload & Hshown & _).
  rewrite Hload.
  exact (Hshown Hempty).
Defined.
